(** * Rectangle narrow-phase collision of the pygame physics module

    A shallow embedding of [src/pgShapeObject.c]: the clipping pass
    [_ClipTest], the reference-face selection and contact filtering of
    [_SATFindCollisionProperty], the entry point [_RectShapeCollision], the
    shape constructor [_RectShape_InitInternal] and the bounding-box update
    [_RectShapeUpdateAABB].

    C [double]s are idealised as real numbers.  The two fixed-size arrays of
    [_Candidate] together with [contact_size] are a list holding the
    initialised prefix; a write past [MAX_CONTACTS] is a fault. *)

From Stdlib Require Import Reals Lra Lia List Bool Arith.
Import ListNotations.

Local Open Scope R_scope.

(** ** Scalars *)

Definition Rltb (a b : R) : bool := if Rlt_dec a b then true else false.
Definition Req_bool (a b : R) : bool := if Req_dec_T a b then true else false.

(** [DBL_MAX] of <float.h>, the largest finite binary64 value. *)
Definition DBL_MAX : R := (2 - / 2 ^ 52) * 2 ^ 1023.

(** ** Vectors ([PyVector2] is [Py_complex]: fields [real] and [imag]) *)

Record PyVector2 : Type := mkVec { real : R; imag : R }.

Definition PyVector2_Set (x y : R) : PyVector2 := mkVec x y.

(** Modelled from the spec: the vector primitives of pgVector2.h are not in
    the source tree; "2D vector arithmetic, dot/cross, rotation by angle". *)
Definition c_sum (a b : PyVector2) : PyVector2 :=
  mkVec (real a + real b) (imag a + imag b).

Definition c_diff (a b : PyVector2) : PyVector2 :=
  mkVec (real a - real b) (imag a - imag b).

Definition PyVector2_Dot (a b : PyVector2) : R :=
  real a * real b + imag a * imag b.

(** "[×] between 2D vectors yields a scalar (the z-component of the 3D
    cross)". *)
Definition PyVector2_Cross (a b : PyVector2) : R :=
  real a * imag b - imag a * real b.

(** "the scalar-times-2D-vector cross is the standard planar equivalent":
    [f ẑ × v]. *)
Definition PyVector2_fCross (f : R) (v : PyVector2) : PyVector2 :=
  mkVec (- f * imag v) (f * real v).

Definition PyVector2_Rotate (v : PyVector2) (seta : R) : PyVector2 :=
  mkVec (real v * cos seta - imag v * sin seta)
        (real v * sin seta + imag v * cos seta).

(** ** Boxes *)

Record AABBBox : Type := mkBox { left : R; right : R; bottom : R; top : R }.

(** Called as [AABB_Gen(left, right, bottom, top)]. *)
Definition AABB_Gen (l r b t : R) : AABBBox := mkBox l r b t.

(** ** Shapes and bodies *)

(** Only [ST_RECT] is named by the source; any other tag is [ST_OTHER]. *)
Inductive ShapeType : Type := ST_RECT | ST_OTHER (tag : nat).

Definition ShapeType_eqb (a b : ShapeType) : bool :=
  match a, b with
  | ST_RECT, ST_RECT => true
  | ST_OTHER m, ST_OTHER n => Nat.eqb m n
  | _, _ => false
  end.

Record PyShapeObject : Type := mkShape
  { box : AABBBox; type : ShapeType; rInertia : R }.

(** [PyRectShapeObject] extends [PyShapeObject] by its first member
    [shape]. *)
Record PyRectShapeObject : Type := mkRect
  { shape : PyShapeObject;
    bottomleft : PyVector2; bottomright : PyVector2;
    topright : PyVector2; topleft : PyVector2 }.

(** The fields of [PyBodyObject] this file reads.  [body_shape] is the
    member [shape], seen through the cast to [PyRectShapeObject*]. *)
Record PyBodyObject : Type := mkBody
  { fMass : R; vecPosition : PyVector2; fRotation : R;
    body_shape : PyRectShapeObject }.

Inductive CollisionFace : Type := CF_LEFT | CF_RIGHT | CF_BOTTOM | CF_TOP.

(** ** Collaborators

    Functions and constants declared in headers outside the source tree.
    The kernel is written against this interface. *)

Class Collaborators : Type := {
  (** Segment-vs-box clipper: [None] when the segment misses the box,
      otherwise the clipped end points [pf], [pt]. *)
  Collision_LiangBarskey :
    AABBBox -> PyVector2 -> PyVector2 -> option (PyVector2 * PyVector2);
  PyVector2_Equal : PyVector2 -> PyVector2 -> bool;
  PyMath_IsNearEqual : R -> R -> bool;
  AABB_IsIn : PyVector2 -> AABBBox -> R -> bool;
  AABB_Clear : AABBBox -> AABBBox;
  AABB_ExpandTo : AABBBox -> PyVector2 -> AABBBox;
  (** [PyBodyObject_GetRelativePos target source p]: the point [p] of
      [source]'s local frame in [target]'s local frame. *)
  PyBodyObject_GetRelativePos :
    PyBodyObject -> PyBodyObject -> PyVector2 -> PyVector2;
  PyBodyObject_GetGlobalPos : PyBodyObject -> PyVector2 -> PyVector2;
  (** The enumerators of [CollisionFace] from [CF_LEFT] up to [CF_TOP], in
      declaration order. *)
  CollisionFace_range : list CollisionFace
}.

(** ** Faults

    The two ways the C code can leave defined behaviour: a write past the
    16 slots of the candidate buffer, and the [switch] on a [face_id] that
    the minimum search never assigned ([assert(0)] at best). *)

Inductive fault : Type := BufferOverflow | FaceUnassigned.

Inductive result (A : Type) : Type :=
| Ok (a : A)
| Fault (f : fault).
Arguments Ok {A} a.
Arguments Fault {A} f.

Definition bind {A B : Type} (m : result A) (k : A -> result B) : result B :=
  match m with
  | Ok a => k a
  | Fault f => Fault f
  end.

Notation "x <- m ;; k" := (bind m (fun x => k))
  (at level 61, m at next level, right associativity).

(** ** The candidate buffer *)

Definition MAX_CONTACTS : nat := 16.

Module Candidate.
Record t : Type := mk
  { normal : PyVector2;
    contacts : list PyVector2;
    kFactors : list R;
    min_depth : R }.
End Candidate.
Definition _Candidate : Type := Candidate.t.

Definition contact_size (candi : _Candidate) : nat :=
  length (Candidate.contacts candi).

(** [candi->contact_size = 0]. *)
Definition reset_contacts (candi : _Candidate) : _Candidate :=
  Candidate.mk (Candidate.normal candi) [] [] (Candidate.min_depth candi).

(** [candi->contacts[candi->contact_size++] = p]. *)
Definition push_contact (candi : _Candidate) (p : PyVector2) : result _Candidate :=
  if (contact_size candi <? MAX_CONTACTS)%nat
  then Ok (Candidate.mk (Candidate.normal candi)
                        (Candidate.contacts candi ++ [p])
                        (Candidate.kFactors candi)
                        (Candidate.min_depth candi))
  else Fault BufferOverflow.

(** ** [_ClipTest] *)

Definition vec0 : PyVector2 := mkVec 0 0.

(** [points[i]] of a four-element array. *)
Definition point_at (points : list PyVector2) (i : nat) : PyVector2 :=
  nth i points vec0.

(** [has_ip[i] = 1]. *)
Fixpoint set_flag (has_ip : list bool) (i : nat) : list bool :=
  match has_ip, i with
  | [], _ => []
  | _ :: fl, O => true :: fl
  | b :: fl, S j => b :: set_flag fl j
  end.

Record clip_state : Type := mkClip
  { apart : bool; has_ip : list bool; clip_candi : _Candidate }.

(** One end point of a clipped edge: flag the vertex when the end point is
    the vertex itself, store the end point otherwise. *)
Definition clip_endpoint `{Collaborators}
    (p vertex : PyVector2) (i : nat) (st : clip_state) : result clip_state :=
  if PyVector2_Equal p vertex
  then Ok (mkClip (apart st) (set_flag (has_ip st) i) (clip_candi st))
  else candi <- push_contact (clip_candi st) p ;;
       Ok (mkClip (apart st) (has_ip st) candi).

(** Body of the first loop of [_ClipTest] for edge [i]. *)
Definition clip_edge `{Collaborators}
    (box : AABBBox) (points : list PyVector2) (st : clip_state) (i : nat)
    : result clip_state :=
  let i1 := ((i + 1) mod 4)%nat in
  match Collision_LiangBarskey box (point_at points i) (point_at points i1) with
  | Some (pf, pt) =>
      let st0 := mkClip false (has_ip st) (clip_candi st) in
      st1 <- clip_endpoint pf (point_at points i) i st0 ;;
      clip_endpoint pt (point_at points i1) i1 st1
  | None => Ok st
  end.

(** [for (i = 0; i < n; ++i) body], threading a state and stopping at a
    fault. *)
Fixpoint for_each {S I : Type} (body : S -> I -> result S) (l : list I) (st : S)
    : result S :=
  match l with
  | [] => Ok st
  | i :: l' => st' <- body st i ;; for_each body l' st'
  end.

(** Body of the second loop: [if (has_ip[i]) contacts[contact_size++] =
    points[i]]. *)
Definition clip_flagged (points : list PyVector2) (flags : list bool)
    (candi : _Candidate) (i : nat) : result _Candidate :=
  if nth i flags false then push_contact candi (point_at points i) else Ok candi.

(** Returns the [int] result as a [bool] together with the candidate. *)
Definition _ClipTest `{Collaborators}
    (box : AABBBox) (points : list PyVector2) (candi : _Candidate)
    : result (bool * _Candidate) :=
  let st0 := mkClip true [false; false; false; false] (reset_contacts candi) in
  st <- for_each (clip_edge box points) [0; 1; 2; 3]%nat st0 ;;
  if apart st then Ok (false, clip_candi st)
  else
    candi' <- for_each (clip_flagged points (has_ip st)) [0; 1; 2; 3]%nat
                       (clip_candi st) ;;
    Ok (true, candi').

(** ** [_SATFindCollisionProperty] *)

(** [a[k]] of a two-element array holding [a0], [a1]. *)
Definition sel {A : Type} (k : nat) (a0 a1 : A) : A :=
  match k with
  | O => a0
  | S _ => a1
  end.

(** [conts[k]]: the candidate contacts in [selfBody]'s frame ([k = 0]) and
    carried over to [incBody]'s frame ([k = 1]). *)
Definition conts `{Collaborators}
    (selfBody incBody : PyBodyObject) (candi : _Candidate) (k : nat)
    : list PyVector2 :=
  sel k (Candidate.contacts candi)
        (map (PyBodyObject_GetRelativePos incBody selfBody)
             (Candidate.contacts candi)).

(** The summand of [deps[f]] for one contact. *)
Definition face_distance (b : AABBBox) (f : CollisionFace) (c : PyVector2) : R :=
  match f with
  | CF_LEFT => Rabs (real c - left b)
  | CF_RIGHT => Rabs (right b - real c)
  | CF_BOTTOM => Rabs (imag c - bottom b)
  | CF_TOP => Rabs (top b - imag c)
  end.

(** [deps[f]] after the accumulation loop. *)
Definition deps (b : AABBBox) (cs : list PyVector2) (f : CollisionFace) : R :=
  fold_left (fun acc c => acc + face_distance b f c) cs 0.

(** [if (min_dep[k] > deps[i]) { face_id[k] = i; min_dep[k] = deps[i]; }] *)
Definition min_step (d : CollisionFace -> R)
    (st : R * option CollisionFace) (i : CollisionFace)
    : R * option CollisionFace :=
  if Rltb (d i) (fst st) then (d i, Some i) else st.

(** [(min_dep[k], face_id[k])]; [face_id[k]] stays unassigned when no sum is
    below [DBL_MAX]. *)
Definition min_face `{Collaborators} (d : CollisionFace -> R)
    : R * option CollisionFace :=
  fold_left (min_step d) CollisionFace_range (DBL_MAX, None).

Definition min_dep `{Collaborators}
    (selfBody incBody : PyBodyObject) (selfBox incBox : AABBBox)
    (candi : _Candidate) (k : nat) : R :=
  fst (min_face (deps (sel k selfBox incBox) (conts selfBody incBody candi k))).

Definition face_id `{Collaborators}
    (selfBody incBody : PyBodyObject) (selfBox incBox : AABBBox)
    (candi : _Candidate) (k : nat) : option CollisionFace :=
  snd (min_face (deps (sel k selfBox incBox) (conts selfBody incBody candi k))).

(** [k = min_dep[0] < min_dep[1] ? 0 : 1]. *)
Definition choose_k `{Collaborators}
    (selfBody incBody : PyBodyObject) (selfBox incBox : AABBBox)
    (candi : _Candidate) : nat :=
  if Rltb (min_dep selfBody incBody selfBox incBox candi 0)
          (min_dep selfBody incBody selfBox incBox candi 1)
  then 0%nat else 1%nat.

(** The normal set in each arm of the [switch]. *)
Definition face_normal (f : CollisionFace) : PyVector2 :=
  match f with
  | CF_LEFT => PyVector2_Set (-1) 0
  | CF_RIGHT => PyVector2_Set 1 0
  | CF_BOTTOM => PyVector2_Set 0 (-1)
  | CF_TOP => PyVector2_Set 0 1
  end.

(** Body of the loops in the [switch]:
    [if (!PyMath_IsNearEqual(coord, face)) contacts[contact_size++] = c]. *)
Definition keep_off_face `{Collaborators}
    (coord : PyVector2 -> R) (face : R) (candi : _Candidate) (c : PyVector2)
    : result _Candidate :=
  if negb (PyMath_IsNearEqual (coord c) face)
  then push_contact candi c
  else Ok candi.

Definition with_normal (n : PyVector2) (candi : _Candidate) : _Candidate :=
  Candidate.mk n (Candidate.contacts candi) (Candidate.kFactors candi)
               (Candidate.min_depth candi).

(** The [switch (face_id[k])]: set the normal and keep the contacts off the
    face. *)
Definition filter_contacts `{Collaborators}
    (fid : option CollisionFace) (b : AABBBox) (cs : list PyVector2)
    (candi : _Candidate) : result _Candidate :=
  match fid with
  | Some CF_LEFT =>
      for_each (keep_off_face real (left b)) cs
               (with_normal (PyVector2_Set (-1) 0) candi)
  | Some CF_RIGHT =>
      for_each (keep_off_face real (right b)) cs
               (with_normal (PyVector2_Set 1 0) candi)
  | Some CF_BOTTOM =>
      for_each (keep_off_face imag (bottom b)) cs
               (with_normal (PyVector2_Set 0 (-1)) candi)
  | Some CF_TOP =>
      for_each (keep_off_face imag (top b)) cs
               (with_normal (PyVector2_Set 0 1) candi)
  | None => Fault FaceUnassigned
  end.

(** A contact of the reference body's local frame in world space. *)
Definition to_world (ref : PyBodyObject) (c : PyVector2) : PyVector2 :=
  c_sum (PyVector2_Rotate c (fRotation ref)) (vecPosition ref).

(** [kFactors[i]] for the world-space contact [c] and world-space normal
    [n]. *)
Definition compute_kFactor (ref inc : PyBodyObject) (n c : PyVector2) : R :=
  let refR := c_diff c (vecPosition ref) in
  let incidR := c_diff c (vecPosition inc) in
  let tmp1 :=
    PyVector2_Dot (PyVector2_fCross (PyVector2_Cross refR n) refR) n
    / rInertia (shape (body_shape ref)) in
  let tmp2 :=
    PyVector2_Dot (PyVector2_fCross (PyVector2_Cross incidR n) incidR) n
    / rInertia (shape (body_shape inc)) in
  1 / fMass ref + 1 / fMass inc + tmp1 + tmp2.

(** The last loop: rotate the normal, move every contact to world space and
    precompute its k-factor. *)
Definition finish_candidate (ref inc : PyBodyObject) (candi : _Candidate)
    : _Candidate :=
  let n := PyVector2_Rotate (Candidate.normal candi) (fRotation ref) in
  let cs := map (to_world ref) (Candidate.contacts candi) in
  Candidate.mk n cs (map (compute_kFactor ref inc n) cs)
               (Candidate.min_depth candi).

Record sat_result : Type := mkSat
  { sat_candi : _Candidate; ans_ref : PyBodyObject; ans_inc : PyBodyObject }.

Definition _SATFindCollisionProperty `{Collaborators}
    (selfBody incBody : PyBodyObject) (selfBox incBox : AABBBox)
    (candi : _Candidate) : result sat_result :=
  (* the copy into [conts[2][MAX_CONTACTS]] *)
  if (MAX_CONTACTS <? contact_size candi)%nat then Fault BufferOverflow else
  let k := choose_k selfBody incBody selfBox incBox candi in
  let self_k := sel k selfBody incBody in
  let inc_k := sel k incBody selfBody in
  let candi1 :=
    Candidate.mk (Candidate.normal candi) [] (Candidate.kFactors candi)
                 (min_dep selfBody incBody selfBox incBox candi k) in
  candi2 <- filter_contacts (face_id selfBody incBody selfBox incBox candi k)
                            (sel k selfBox incBox)
                            (conts selfBody incBody candi k) candi1 ;;
  Ok (mkSat (finish_candidate self_k inc_k candi2) self_k inc_k).

(** ** [_RectShapeCollision] *)

(** The fields of [PyContact] stamped by the entry point.  [ref_body] and
    [inc_body] are the two bodies handed to [PyContact_New].  The two heap
    cells [pAcc], [pSplitAcc] shared by the records of one manifold are
    created zeroed and read by nothing here; they are left out. *)
Module Contact.
Record t : Type := mk
  { ref_body : PyBodyObject; inc_body : PyBodyObject;
    pos : PyVector2; normal : PyVector2;
    weight : nat; depth : R; kFactor : R }.
End Contact.
Definition PyContact : Type := Contact.t.

(** The four local corners in the order [bottomleft, bottomright, topright,
    topleft]. *)
Definition corners (r : PyRectShapeObject) : list PyVector2 :=
  [bottomleft r; bottomright r; topright r; topleft r].

(** [AABB_Gen(bottomleft.real, topright.real, bottomleft.imag,
    topright.imag)]. *)
Definition local_box (r : PyRectShapeObject) : AABBBox :=
  AABB_Gen (real (bottomleft r)) (real (topright r))
           (imag (bottomleft r)) (imag (topright r)).

(** [if (AABB_IsIn(&p_in_inc[i], &box_inc, 0.f))
       contacts[contact_size++] = corner]. *)
Definition add_corner `{Collaborators}
    (box_inc : AABBBox) (candi : _Candidate) (pc : PyVector2 * PyVector2)
    : result _Candidate :=
  if AABB_IsIn (fst pc) box_inc 0 then push_contact candi (snd pc) else Ok candi.

(** The record appended for contact [i]. *)
Definition make_contact (r : sat_result) (i : nat) : PyContact :=
  let candi := sat_candi r in
  Contact.mk (ans_ref r) (ans_inc r)
             (nth i (Candidate.contacts candi) vec0)
             (Candidate.normal candi)
             (contact_size candi)
             (Candidate.min_depth candi)
             (nth i (Candidate.kFactors candi) 0).

(** The candidate as declared on the stack: only [normal] is initialised;
    the other members are written before they are read. *)
Definition candi_init : _Candidate := Candidate.mk vec0 [] [] 0.

(** First half of the entry point, up to the call of
    [_SATFindCollisionProperty]: clip [incidBody]'s edges against
    [selfBody]'s box, and, unless the clip test says "apart", add the
    corners of [selfBody] that lie in [incidBody]'s box.  The [bool] is the
    result of [_ClipTest]. *)
Definition collect_contacts `{Collaborators}
    (selfBody incidBody : PyBodyObject) : result (bool * _Candidate) :=
  let self := body_shape selfBody in
  let inc := body_shape incidBody in
  let p_in_self :=
    map (PyBodyObject_GetRelativePos selfBody incidBody) (corners inc) in
  let p_in_inc :=
    map (PyBodyObject_GetRelativePos incidBody selfBody) (corners self) in
  let box_self := local_box self in
  let box_inc := local_box inc in
  clip <- _ClipTest box_self p_in_self candi_init ;;
  if negb (fst clip) then Ok (false, snd clip)
  else
    candi <- for_each (add_corner box_inc) (combine p_in_inc (corners self))
                      (snd clip) ;;
    Ok (true, candi).

(** Returns the [int] result as a [bool], and the contact list after the
    call. *)
Definition _RectShapeCollision `{Collaborators}
    (selfBody incidBody : PyBodyObject) (contactList : list PyContact)
    : result (bool * list PyContact) :=
  found <- collect_contacts selfBody incidBody ;;
  if negb (fst found) then Ok (false, contactList)
  else
    r <- _SATFindCollisionProperty selfBody incidBody
           (local_box (body_shape selfBody)) (local_box (body_shape incidBody))
           (snd found) ;;
    Ok (true,
        contactList
        ++ map (make_contact r) (seq 0 (contact_size (sat_candi r)))).

(** ** Shape construction and box update *)

Definition _RectShape_InitInternal
    (sh : PyRectShapeObject) (width height seta : R) : PyRectShapeObject :=
  mkRect (shape sh)
    (PyVector2_Rotate (PyVector2_Set (- width / 2) (- height / 2)) seta)
    (PyVector2_Rotate (PyVector2_Set (width / 2) (- height / 2)) seta)
    (PyVector2_Rotate (PyVector2_Set (width / 2) (height / 2)) seta)
    (PyVector2_Rotate (PyVector2_Set (- width / 2) (height / 2)) seta).

(** [p->shape.box = b]. *)
Definition set_box (body : PyBodyObject) (b : AABBBox) : PyBodyObject :=
  let p := body_shape body in
  mkBody (fMass body) (vecPosition body) (fRotation body)
    (mkRect (mkShape b (type (shape p)) (rInertia (shape p)))
            (bottomleft p) (bottomright p) (topright p) (topleft p)).

(** The body after the call. *)
Definition _RectShapeUpdateAABB `{Collaborators} (body : PyBodyObject)
    : PyBodyObject :=
  if ShapeType_eqb (type (shape (body_shape body))) ST_RECT then
    let body1 := set_box body (AABB_Clear (box (shape (body_shape body)))) in
    let p := body_shape body1 in
    let gp := map (PyBodyObject_GetGlobalPos body1) (corners p) in
    set_box body1 (fold_left AABB_ExpandTo gp (box (shape p)))
  else body.

(** [PyRectShape_New]: [_RectShapeNew] tags the shape [ST_RECT] over the
    zeroed members of [_ShapeNew], then [_RectShape_InitInternal] fills the
    corners. *)
Definition PyRectShape_New (width height seta : R) : PyRectShapeObject :=
  _RectShape_InitInternal
    (mkRect (mkShape (mkBox 0 0 0 0) ST_RECT 0) vec0 vec0 vec0 vec0)
    width height seta.

(** ** The collaborators as the specification describes them *)

Module SpecModel.

(** Modelled from the spec: the tolerance of [PyMath_IsNearEqual]
    (pgHelpFunctions.h is not in the source tree); "[|a − b| < ε], with [ε]
    chosen around [1e-9]". *)
Definition epsilon : R := / 10 ^ 9.

(** Modelled from the spec: [PyMath_IsNearEqual], "a tolerance comparison
    ([|a − b| < ε])". *)
Definition IsNearEqual (a b : R) : bool := Rltb (Rabs (a - b)) epsilon.

(** Modelled from the spec: [PyVector2_Equal] (pgVector2.h is missing),
    "equality with the input endpoints is decided with a tolerance". *)
Definition Equal (a b : PyVector2) : bool :=
  IsNearEqual (real a) (real b) && IsNearEqual (imag a) (imag b).

(** Modelled from the spec: one box edge of the clipper of pgCollision.h,
    "compute entering and leaving parameters against each of the four box
    edges".  [u] is the parameter interval so far; [None] rejects. *)
Definition clip_param (p q : R) (u : R * R) : option (R * R) :=
  if Req_bool p 0 then (if Rltb q 0 then None else Some u)
  else if Rltb p 0 then Some (Rmax (fst u) (q / p), snd u)
  else Some (fst u, Rmin (snd u) (q / p)).

Definition and_then {A B : Type} (o : option A) (k : A -> option B) : option B :=
  match o with
  | Some a => k a
  | None => None
  end.

(** The point of the segment from [p] in direction [d] at parameter [u]. *)
Definition along (p d : PyVector2) (u : R) : PyVector2 :=
  mkVec (real p + u * real d) (imag p + u * imag d).

(** Modelled from the spec: [Collision_LiangBarskey], "Liang–Barsky
    parametric clipping ... if the intervals do not overlap, reject.
    Otherwise produce clipped endpoints from the parameter values". *)
Definition LiangBarskey (b : AABBBox) (p1 p2 : PyVector2)
    : option (PyVector2 * PyVector2) :=
  let dp := c_diff p2 p1 in
  and_then (clip_param (real p1 - real p2) (real p1 - left b) (0, 1)) (fun u =>
  and_then (clip_param (real p2 - real p1) (right b - real p1) u) (fun u =>
  and_then (clip_param (imag p1 - imag p2) (imag p1 - bottom b) u) (fun u =>
  and_then (clip_param (imag p2 - imag p1) (top b - imag p1) u) (fun u =>
  if Rltb (snd u) (fst u) then None
  else Some (along p1 dp (fst u), along p1 dp (snd u)))))).

(** Modelled from the spec: [AABB_IsIn] of pgAABBBox.h, "point-in-box test
    with tolerance". *)
Definition IsIn (p : PyVector2) (b : AABBBox) (eps : R) : bool :=
  Rltb (left b - eps) (real p) && Rltb (real p) (right b + eps)
  && Rltb (bottom b - eps) (imag p) && Rltb (imag p) (top b + eps).

(** Modelled from the spec: [AABB_Clear], the "empty box" that is then
    expanded over the corners. *)
Definition Clear (_ : AABBBox) : AABBBox :=
  mkBox DBL_MAX (- DBL_MAX) DBL_MAX (- DBL_MAX).

(** Modelled from the spec: [AABB_ExpandTo], "expansion by point". *)
Definition ExpandTo (b : AABBBox) (p : PyVector2) : AABBBox :=
  mkBox (Rmin (left b) (real p)) (Rmax (right b) (real p))
        (Rmin (bottom b) (imag p)) (Rmax (top b) (imag p)).

(** Modelled from the spec: [PyBodyObject_GetGlobalPos] of pgBodyObject.h,
    "transform a local point to world space". *)
Definition GetGlobalPos (body : PyBodyObject) (p : PyVector2) : PyVector2 :=
  c_sum (PyVector2_Rotate p (fRotation body)) (vecPosition body).

(** Modelled from the spec: [PyBodyObject_GetRelativePos], "equivalent to
    applying [source]'s world transform then the inverse of [target]'s". *)
Definition GetRelativePos (target source : PyBodyObject) (p : PyVector2)
    : PyVector2 :=
  PyVector2_Rotate (c_diff (GetGlobalPos source p) (vecPosition target))
                   (- fRotation target).

(** Modelled from the spec: the order of the [CollisionFace] enumerators
    (pgCollision.h is missing), "left, right, bottom, top". *)
Definition face_range : list CollisionFace :=
  [CF_LEFT; CF_RIGHT; CF_BOTTOM; CF_TOP].

#[global] Instance collaborators : Collaborators :=
  { Collision_LiangBarskey := LiangBarskey;
    PyVector2_Equal := Equal;
    PyMath_IsNearEqual := IsNearEqual;
    AABB_IsIn := IsIn;
    AABB_Clear := Clear;
    AABB_ExpandTo := ExpandTo;
    PyBodyObject_GetRelativePos := GetRelativePos;
    PyBodyObject_GetGlobalPos := GetGlobalPos;
    CollisionFace_range := face_range }.

End SpecModel.

(** ** Concrete scenes *)

(** An unrotated rectangle body of unit mass and unit inertia. *)
Definition rect_body (width height x y : R) : PyBodyObject :=
  let r := PyRectShape_New width height 0 in
  mkBody 1 (mkVec x y) 0
    (mkRect (mkShape (box (shape r)) (type (shape r)) 1)
            (bottomleft r) (bottomright r) (topright r) (topleft r)).

(** Two unit squares overlapping in a quarter. *)
Definition tie_bodyA : PyBodyObject := rect_body 1 1 0 0.
Definition tie_bodyB : PyBodyObject := rect_body 1 1 (1 / 2) (1 / 4).

(** A unit square inside a 10 x 10 square, left of its centre. *)
Definition outer_body : PyBodyObject := rect_body 10 10 0 0.
Definition inner_body : PyBodyObject := rect_body 1 1 (-1) (1 / 5).

(** Two unit squares overlapping by a strip thinner than the tolerance. *)
Definition graze_depth : R := / 10 ^ 10.
Definition graze_bodyA : PyBodyObject := rect_body 1 1 0 0.
Definition graze_bodyB : PyBodyObject := rect_body 1 1 (1 - graze_depth) (1 / 4).

(** A body whose shape carries another tag than [ST_RECT]. *)
Definition other_body : PyBodyObject :=
  mkBody 1 vec0 0
    (mkRect (mkShape (mkBox 0 0 0 0) (ST_OTHER 1) 1) vec0 vec0 vec0 vec0).

(** The local box and corners of a unit square, and the box of the 10 x 10
    square. *)
Definition unit_box : AABBBox := mkBox (-1/2) (1/2) (-1/2) (1/2).
Definition ten_box : AABBBox := mkBox (-5) 5 (-5) 5.
Definition unit_corners : list PyVector2 :=
  [mkVec (-1/2) (-1/2); mkVec (1/2) (-1/2); mkVec (1/2) (1/2); mkVec (-1/2) (1/2)].

(** The quarter-overlap scene: the corners of B in A's frame, the candidate
    handed to the face selection, its contacts in B's frame, the result of
    the face selection and the records appended. *)
Definition tie_in_self : list PyVector2 :=
  [mkVec 0 (-1/4); mkVec 1 (-1/4); mkVec 1 (3/4); mkVec 0 (3/4)].
Definition tie_clipped : _Candidate :=
  Candidate.mk vec0 [mkVec (1/2) (-1/4); mkVec 0 (1/2); mkVec 0 (-1/4)] [] 0.
Definition tie_candi : _Candidate :=
  Candidate.mk vec0
    [mkVec (1/2) (-1/4); mkVec 0 (1/2); mkVec 0 (-1/4); mkVec (1/2) (1/2)] [] 0.
Definition tie_conts_inc : list PyVector2 :=
  [mkVec 0 (-1/2); mkVec (-1/2) (1/4); mkVec (-1/2) (-1/2); mkVec 0 (1/4)].
Definition tie_kept : list PyVector2 := [mkVec 0 (-1/2); mkVec 0 (1/4)].
Definition tie_result : sat_result :=
  mkSat (finish_candidate tie_bodyB tie_bodyA
           (Candidate.mk (mkVec (-1) 0) tie_kept [] 1))
        tie_bodyB tie_bodyA.
Definition tie_contacts : list PyContact :=
  [Contact.mk tie_bodyB tie_bodyA (mkVec (1/2) (-1/4)) (mkVec (-1) 0) 2 1 (37/16);
   Contact.mk tie_bodyB tie_bodyA (mkVec (1/2) (1/2)) (mkVec (-1) 0) 2 1 (37/16)].

(** The containment scene: the corners of each body in the other's frame,
    the candidate, the result of the face selection and the records
    appended. *)
Definition inner_in_outer : list PyVector2 :=
  [mkVec (-3/2) (-3/10); mkVec (-1/2) (-3/10); mkVec (-1/2) (7/10);
   mkVec (-3/2) (7/10)].
Definition outer_in_inner : list PyVector2 :=
  [mkVec (-4) (-26/5); mkVec 6 (-26/5); mkVec 6 (24/5); mkVec (-4) (24/5)].
Definition contain_candi : _Candidate := Candidate.mk vec0 inner_in_outer [] 0.
Definition contain_kept : _Candidate :=
  Candidate.mk (mkVec (-1) 0) [mkVec (1/2) (-1/2); mkVec (1/2) (1/2)] [] 2.
Definition contain_contacts : list PyContact :=
  [Contact.mk inner_body outer_body (mkVec (-1/2) (-3/10)) (mkVec (-1) 0)
              2 2 (117/50);
   Contact.mk inner_body outer_body (mkVec (-1/2) (7/10)) (mkVec (-1) 0)
              2 2 (137/50)].

(** The grazing scene. *)
Definition graze_in_self : list PyVector2 :=
  [mkVec (1/2 - / 10 ^ 10) (-1/4); mkVec (3/2 - / 10 ^ 10) (-1/4);
   mkVec (3/2 - / 10 ^ 10) (3/4); mkVec (1/2 - / 10 ^ 10) (3/4)].
Definition graze_clipped : _Candidate :=
  Candidate.mk vec0
    [mkVec (1/2) (-1/4); mkVec (1/2 - / 10 ^ 10) (1/2);
     mkVec (1/2 - / 10 ^ 10) (-1/4)] [] 0.
Definition graze_candi : _Candidate :=
  Candidate.mk vec0
    [mkVec (1/2) (-1/4); mkVec (1/2 - / 10 ^ 10) (1/2);
     mkVec (1/2 - / 10 ^ 10) (-1/4); mkVec (1/2) (1/2)] [] 0.
Definition graze_conts_inc : list PyVector2 :=
  [mkVec (-1/2 + / 10 ^ 10) (-1/2); mkVec (-1/2) (1/4);
   mkVec (-1/2) (-1/2); mkVec (-1/2 + / 10 ^ 10) (1/4)].

(** A 2 x 2 rectangle shape constructed with a quarter turn. *)
Definition quarter_turn_shape : PyRectShapeObject := PyRectShape_New 2 2 (PI / 2).


(** ** Vocabulary of the statements *)

Definition clip_size (st : clip_state) : nat := contact_size (clip_candi st).

(** The coordinate of a contact on the normal axis of face [f]. *)
Definition axis_coord (f : CollisionFace) (c : PyVector2) : R :=
  match f with
  | CF_LEFT | CF_RIGHT => real c
  | CF_BOTTOM | CF_TOP => imag c
  end.

(** The coordinate of face [f] of box [b]. *)
Definition face_coord (f : CollisionFace) (b : AABBBox) : R :=
  match f with
  | CF_LEFT => left b
  | CF_RIGHT => right b
  | CF_BOTTOM => bottom b
  | CF_TOP => top b
  end.

(** The contact lies on face [f] of [b] within the near-equal tolerance. *)
Definition on_face `{Collaborators}
    (f : CollisionFace) (b : AABBBox) (c : PyVector2) : bool :=
  PyMath_IsNearEqual (axis_coord f c) (face_coord f b).

(** The number of vertices flagged in [has_ip]. *)
Definition count_flags (flags : list bool) : nat :=
  length (filter (fun b : bool => b) flags).

(** The clipper accepts edge [i] of [points], the segment from [points[i]]
    to [points[(i + 1) % 4]]. *)
Definition edge_hit `{Collaborators}
    (b : AABBBox) (points : list PyVector2) (i : nat) : bool :=
  match Collision_LiangBarskey b (point_at points i)
          (point_at points ((i + 1) mod 4)) with
  | Some _ => true
  | None => false
  end.

(** A point is within a box, borders included. *)
Definition box_contains (b : AABBBox) (p : PyVector2) : Prop :=
  left b <= real p <= right b /\ bottom b <= imag p <= top b.

(** A body moved by the world vector [v]. *)
Definition translate_body (v : PyVector2) (body : PyBodyObject) : PyBodyObject :=
  mkBody (fMass body) (c_sum (vecPosition body) v) (fRotation body)
         (body_shape body).

(** A contact record moved by the world vector [v] together with its two
    bodies. *)
Definition translate_contact (v : PyVector2) (c : PyContact) : PyContact :=
  Contact.mk (translate_body v (Contact.ref_body c))
             (translate_body v (Contact.inc_body c))
             (c_sum (Contact.pos c) v) (Contact.normal c)
             (Contact.weight c) (Contact.depth c) (Contact.kFactor c).

(** What [_ClipTest] will have stored once the flagged vertices are added:
    the points stored so far plus the vertices flagged so far. *)
Definition clip_measure (st : clip_state) : nat :=
  (clip_size st + count_flags (has_ip st))%nat.

(** * Properties *)

(** ** Scalars and vectors *)

Lemma Rltb_true (a b : R) : Rltb a b = true <-> a < b.
Proof.
  unfold Rltb; destruct (Rlt_dec a b) as [Hlt | Hge]; split; intro Hx.
  - exact Hlt.
  - reflexivity.
  - discriminate Hx.
  - contradiction.
Qed.

Lemma Rltb_false (a b : R) : Rltb a b = false <-> ~ a < b.
Proof.
  unfold Rltb; destruct (Rlt_dec a b) as [Hlt | Hge]; split; intro Hx.
  - discriminate Hx.
  - contradiction.
  - exact Hge.
  - reflexivity.
Qed.

Lemma Req_bool_true (a b : R) : Req_bool a b = true <-> a = b.
Proof.
  unfold Req_bool; destruct (Req_dec_T a b) as [Heq | Hne]; split; intro Hx.
  - exact Heq.
  - reflexivity.
  - discriminate Hx.
  - contradiction.
Qed.

Lemma Req_bool_false (a b : R) : Req_bool a b = false <-> a <> b.
Proof.
  unfold Req_bool; destruct (Req_dec_T a b) as [Heq | Hne]; split; intro Hx.
  - discriminate Hx.
  - contradiction.
  - exact Hne.
  - reflexivity.
Qed.

Lemma sin_cos_square (a : R) : sin a * sin a + cos a * cos a = 1.
Proof. pose proof (sin2_cos2 a) as Hsc; unfold Rsqr in Hsc; exact Hsc. Qed.

(** Rotation preserves the dot product of a vector with itself. *)
Lemma Rotate_norm (v : PyVector2) (a : R) :
  PyVector2_Dot (PyVector2_Rotate v a) (PyVector2_Rotate v a) = PyVector2_Dot v v.
Proof.
  unfold PyVector2_Dot, PyVector2_Rotate; cbn [real imag].
  pose proof (sin_cos_square a) as Hsc.
  nra.
Qed.


Lemma face_normal_unit (f : CollisionFace) :
  PyVector2_Dot (face_normal f) (face_normal f) = 1.
Proof.
  destruct f; unfold PyVector2_Dot, face_normal, PyVector2_Set; cbn [real imag]; ring.
Qed.

(** The k-factor summand is the square of the planar cross product. *)
Lemma Dot_fCross_Cross (r n : PyVector2) :
  PyVector2_Dot (PyVector2_fCross (PyVector2_Cross r n) r) n
  = PyVector2_Cross r n * PyVector2_Cross r n.
Proof.
  unfold PyVector2_Dot, PyVector2_fCross, PyVector2_Cross; cbn [real imag]; ring.
Qed.

(** ** The candidate buffer and the loops *)

Lemma push_contact_inv (candi candi' : _Candidate) (p : PyVector2) :
  push_contact candi p = Ok candi' ->
  Candidate.contacts candi' = Candidate.contacts candi ++ [p]
  /\ Candidate.normal candi' = Candidate.normal candi
  /\ Candidate.kFactors candi' = Candidate.kFactors candi
  /\ Candidate.min_depth candi' = Candidate.min_depth candi
  /\ (contact_size candi' <= MAX_CONTACTS)%nat.
Proof.
  unfold push_contact.
  destruct (contact_size candi <? MAX_CONTACTS)%nat eqn:Hroom; [| discriminate].
  intro Hok; injection Hok as <-; cbn.
  apply Nat.ltb_lt in Hroom.
  repeat split; unfold contact_size; cbn.
  rewrite length_app; cbn; unfold contact_size in Hroom; lia.
Qed.

Lemma push_contact_room (candi : _Candidate) (p : PyVector2) :
  (contact_size candi < MAX_CONTACTS)%nat ->
  exists candi', push_contact candi p = Ok candi'
                 /\ contact_size candi' = S (contact_size candi).
Proof.
  intro Hroom; unfold push_contact.
  apply Nat.ltb_lt in Hroom; rewrite Hroom.
  eexists; split; [reflexivity |].
  unfold contact_size; cbn; rewrite length_app; cbn; lia.
Qed.

(** A loop whose body grows a measure by at most [d] and cannot fault while
    there is room for [d] more, runs to its end when there is room for
    [d] per iteration. *)
Lemma for_each_room {S I : Type} (body : S -> I -> result S) (size : S -> nat)
    (d N : nat) :
  (forall st i, (size st + d <= N)%nat ->
     exists st', body st i = Ok st' /\ (size st' <= size st + d)%nat) ->
  forall (l : list I) (st : S),
    (size st + d * length l <= N)%nat ->
    exists st', for_each body l st = Ok st'
                /\ (size st' <= size st + d * length l)%nat.
Proof.
  intros Hbody l; induction l as [| i l IH]; intros st Hroom; cbn in *.
  - exists st; split; [reflexivity | lia].
  - destruct (Hbody st i) as (st1 & Hst1 & Hsz1); [lia |].
    rewrite Hst1; cbn.
    destruct (IH st1) as (st2 & Hst2 & Hsz2); [lia |].
    exists st2; split; [exact Hst2 | lia].
Qed.

(** A loop preserves whatever each iteration preserves. *)
Lemma for_each_inv {S I : Type} (body : S -> I -> result S) (P : S -> Prop) :
  (forall st i st', P st -> body st i = Ok st' -> P st') ->
  forall (l : list I) (st st' : S),
    P st -> for_each body l st = Ok st' -> P st'.
Proof.
  intros Hbody l; induction l as [| i l IH]; intros st st' HP Hrun; cbn in Hrun.
  - injection Hrun as <-; exact HP.
  - destruct (body st i) as [st1 | f] eqn:Hst1; cbn in Hrun; [| discriminate].
    eapply IH; [| exact Hrun].
    eapply Hbody; eassumption.
Qed.

(** ** [_ClipTest] stays within the buffer *)

Lemma clip_endpoint_room `{Collaborators}
    (p vertex : PyVector2) (i : nat) (st : clip_state) :
  (clip_size st + 1 <= MAX_CONTACTS)%nat ->
  exists st', clip_endpoint p vertex i st = Ok st'
              /\ (clip_size st' <= clip_size st + 1)%nat.
Proof.
  intro Hroom; unfold clip_endpoint.
  destruct (PyVector2_Equal p vertex).
  - eexists; split; [reflexivity |]; unfold clip_size; cbn; lia.
  - destruct (push_contact_room (clip_candi st) p) as (c & Hc & Hsz).
    + unfold clip_size in Hroom; lia.
    + rewrite Hc; cbn; eexists; split; [reflexivity |].
      unfold clip_size; cbn; lia.
Qed.

Lemma clip_edge_room `{Collaborators}
    (b : AABBBox) (points : list PyVector2) (st : clip_state) (i : nat) :
  (clip_size st + 2 <= MAX_CONTACTS)%nat ->
  exists st', clip_edge b points st i = Ok st'
              /\ (clip_size st' <= clip_size st + 2)%nat.
Proof.
  intro Hroom; unfold clip_edge.
  destruct (Collision_LiangBarskey _ _ _) as [[pf pt] |].
  - destruct (clip_endpoint_room pf (point_at points i) i
                (mkClip false (has_ip st) (clip_candi st))) as (st1 & Hst1 & Hsz1).
    { unfold clip_size in *; cbn; lia. }
    rewrite Hst1; cbn.
    destruct (clip_endpoint_room pt (point_at points ((i + 1) mod 4)) ((i + 1) mod 4) st1)
      as (st2 & Hst2 & Hsz2).
    { unfold clip_size in *; cbn in *; lia. }
    exists st2; split; [exact Hst2 |].
    unfold clip_size in *; cbn in *; lia.
  - exists st; split; [reflexivity | lia].
Qed.

Lemma clip_flagged_room (points : list PyVector2) (flags : list bool)
    (candi : _Candidate) (i : nat) :
  (contact_size candi + 1 <= MAX_CONTACTS)%nat ->
  exists candi', clip_flagged points flags candi i = Ok candi'
                 /\ (contact_size candi' <= contact_size candi + 1)%nat.
Proof.
  intro Hroom; unfold clip_flagged.
  destruct (nth i flags false).
  - destruct (push_contact_room candi (point_at points i)) as (c & Hc & Hsz); [lia |].
    exists c; split; [exact Hc | lia].
  - exists candi; split; [reflexivity | lia].
Qed.

(** [_ClipTest] always returns, with at most 12 candidate contacts. *)
Lemma ClipTest_total `{Collaborators}
    (b : AABBBox) (points : list PyVector2) (candi : _Candidate) :
  exists (hit : bool) (candi' : _Candidate),
    _ClipTest b points candi = Ok (hit, candi')
    /\ (contact_size candi' <= 12)%nat.
Proof.
  unfold _ClipTest.
  destruct (for_each_room (clip_edge b points) clip_size 2 MAX_CONTACTS
              (clip_edge_room b points) [0; 1; 2; 3]%nat
              (mkClip true [false; false; false; false] (reset_contacts candi)))
    as (st & Hst & Hsz).
  { unfold clip_size, MAX_CONTACTS; cbn; lia. }
  rewrite Hst; cbn [bind].
  unfold clip_size in Hsz; cbn in Hsz.
  destruct (apart st).
  - eexists _, _; split; [reflexivity | lia].
  - destruct (for_each_room (clip_flagged points (has_ip st)) contact_size 1
                MAX_CONTACTS (clip_flagged_room points (has_ip st))
                [0; 1; 2; 3]%nat (clip_candi st)) as (c & Hc & Hszc).
    { unfold MAX_CONTACTS; cbn; lia. }
    rewrite Hc; cbn [bind].
    eexists _, _; split; [reflexivity |]. cbn in Hszc; lia.
Qed.

Lemma add_corner_room `{Collaborators}
    (box_inc : AABBBox) (candi : _Candidate) (pc : PyVector2 * PyVector2) :
  (contact_size candi + 1 <= MAX_CONTACTS)%nat ->
  exists candi', add_corner box_inc candi pc = Ok candi'
                 /\ (contact_size candi' <= contact_size candi + 1)%nat.
Proof.
  intro Hroom; unfold add_corner.
  destruct (AABB_IsIn _ _ _).
  - destruct (push_contact_room candi (snd pc)) as (c & Hc & Hsz); [lia |].
    exists c; split; [exact Hc | lia].
  - exists candi; split; [reflexivity | lia].
Qed.

(** The first half of the entry point always returns, with at most 16
    candidate contacts. *)
Lemma collect_contacts_total `{Collaborators} (selfBody incidBody : PyBodyObject) :
  exists (hit : bool) (candi : _Candidate),
    collect_contacts selfBody incidBody = Ok (hit, candi)
    /\ (contact_size candi <= MAX_CONTACTS)%nat.
Proof.
  unfold collect_contacts.
  destruct (ClipTest_total (local_box (body_shape selfBody))
              (map (PyBodyObject_GetRelativePos selfBody incidBody)
                   (corners (body_shape incidBody))) candi_init)
    as (hit & c & Hclip & Hsz).
  rewrite Hclip; cbn [bind fst snd].
  destruct hit; cbn [negb].
  - destruct (for_each_room (add_corner (local_box (body_shape incidBody)))
                contact_size 1 MAX_CONTACTS
                (add_corner_room (local_box (body_shape incidBody)))
                (combine (map (PyBodyObject_GetRelativePos incidBody selfBody)
                              (corners (body_shape selfBody)))
                         (corners (body_shape selfBody))) c) as (c' & Hc' & Hsz').
    { unfold MAX_CONTACTS; cbn; lia. }
    rewrite Hc'; cbn [bind].
    eexists _, _; split; [reflexivity |].
    cbn in Hsz'; unfold MAX_CONTACTS; lia.
  - eexists _, _; split; [reflexivity |]. unfold MAX_CONTACTS; lia.
Qed.

(** ** The filtering loop *)

Lemma keep_off_face_run `{Collaborators} (coord : PyVector2 -> R) (face : R) :
  forall (cs : list PyVector2) (candi candi' : _Candidate),
    for_each (keep_off_face coord face) cs candi = Ok candi' ->
    Candidate.contacts candi'
    = Candidate.contacts candi
      ++ filter (fun c => negb (PyMath_IsNearEqual (coord c) face)) cs
    /\ Candidate.normal candi' = Candidate.normal candi
    /\ Candidate.kFactors candi' = Candidate.kFactors candi
    /\ Candidate.min_depth candi' = Candidate.min_depth candi.
Proof.
  induction cs as [| c cs IH]; intros candi candi' Hrun; cbn in Hrun.
  - injection Hrun as <-; rewrite app_nil_r; repeat split.
  - unfold keep_off_face at 1 in Hrun; cbn [filter].
    destruct (negb (PyMath_IsNearEqual (coord c) face)); cbn in Hrun.
    + destruct (push_contact candi c) as [c1 | flt] eqn:Hpush; cbn in Hrun;
        [| discriminate].
      apply push_contact_inv in Hpush as (Hcs & Hn & Hk & Hd & _).
      apply IH in Hrun as (Hcs' & Hn' & Hk' & Hd').
      rewrite Hcs', Hcs, Hn', Hk', Hd', <- app_assoc; cbn; repeat split; assumption.
    + apply IH in Hrun; exact Hrun.
Qed.

Lemma keep_off_face_room `{Collaborators} (coord : PyVector2 -> R) (face : R)
    (candi : _Candidate) (c : PyVector2) :
  (contact_size candi + 1 <= MAX_CONTACTS)%nat ->
  exists candi', keep_off_face coord face candi c = Ok candi'
                 /\ (contact_size candi' <= contact_size candi + 1)%nat.
Proof.
  intro Hroom; unfold keep_off_face.
  destruct (negb _).
  - destruct (push_contact_room candi c) as (c1 & Hc1 & Hsz); [lia |].
    exists c1; split; [exact Hc1 | lia].
  - exists candi; split; [reflexivity | lia].
Qed.

(** What the [switch] leaves in a candidate whose buffer was reset. *)
Lemma filter_contacts_inv `{Collaborators}
    (fid : option CollisionFace) (b : AABBBox) (cs : list PyVector2)
    (candi candi' : _Candidate) :
  Candidate.contacts candi = [] ->
  filter_contacts fid b cs candi = Ok candi' ->
  exists f : CollisionFace,
    fid = Some f
    /\ Candidate.normal candi' = face_normal f
    /\ Candidate.contacts candi' = filter (fun c => negb (on_face f b c)) cs
    /\ Candidate.kFactors candi' = Candidate.kFactors candi
    /\ Candidate.min_depth candi' = Candidate.min_depth candi.
Proof.
  intros Hempty Hrun; unfold filter_contacts in Hrun.
  destruct fid as [f |]; [| discriminate].
  exists f; split; [reflexivity |].
  destruct f; apply keep_off_face_run in Hrun as (Hcs & Hn & Hk & Hd);
    cbn in Hcs, Hn, Hk, Hd; rewrite Hempty in Hcs; cbn in Hcs;
    repeat split; assumption.
Qed.

Lemma filter_contacts_no_overflow `{Collaborators}
    (fid : option CollisionFace) (b : AABBBox) (cs : list PyVector2)
    (candi : _Candidate) :
  Candidate.contacts candi = [] ->
  (length cs <= MAX_CONTACTS)%nat ->
  filter_contacts fid b cs candi <> Fault BufferOverflow.
Proof.
  intros Hempty Hlen; unfold filter_contacts.
  destruct fid as [f |]; [| discriminate].
  destruct f;
    match goal with
    | |- for_each (keep_off_face ?coord ?face) cs ?c0 <> _ =>
        destruct (for_each_room (keep_off_face coord face) contact_size 1
                    MAX_CONTACTS (keep_off_face_room coord face) cs c0)
          as (c1 & Hc1 & _);
        [ unfold contact_size, with_normal; cbn; rewrite Hempty; cbn; lia
        | rewrite Hc1; discriminate ]
    end.
Qed.

Lemma conts_length `{Collaborators}
    (selfBody incBody : PyBodyObject) (candi : _Candidate) (k : nat) :
  length (conts selfBody incBody candi k) = contact_size candi.
Proof.
  unfold conts, contact_size; destruct k; cbn; [| rewrite length_map]; reflexivity.
Qed.

(** ** [_SATFindCollisionProperty] *)

(** The outcome of the whole function in terms of the chosen index [k] and
    the chosen face [f]. *)
Lemma SAT_inv `{Collaborators}
    (selfBody incBody : PyBodyObject) (selfBox incBox : AABBBox)
    (candi : _Candidate) (r : sat_result) :
  _SATFindCollisionProperty selfBody incBody selfBox incBox candi = Ok r ->
  let k := choose_k selfBody incBody selfBox incBox candi in
  exists f : CollisionFace,
    face_id selfBody incBody selfBox incBox candi k = Some f
    /\ ans_ref r = sel k selfBody incBody
    /\ ans_inc r = sel k incBody selfBody
    /\ sat_candi r
       = finish_candidate (ans_ref r) (ans_inc r)
           (Candidate.mk (face_normal f)
              (filter (fun c => negb (on_face f (sel k selfBox incBox) c))
                      (conts selfBody incBody candi k))
              (Candidate.kFactors candi)
              (min_dep selfBody incBody selfBox incBox candi k)).
Proof.
  intros Hrun k; unfold _SATFindCollisionProperty in Hrun; fold k in Hrun.
  destruct (MAX_CONTACTS <? contact_size candi)%nat; [discriminate |].
  match type of Hrun with
  | bind ?m _ = _ => destruct m as [candi2 | flt] eqn:Hfilter
  end; cbn in Hrun; [| discriminate].
  injection Hrun as <-; cbn [ans_ref ans_inc sat_candi].
  apply filter_contacts_inv in Hfilter as (f & Hf & Hn & Hcs & Hk & Hd);
    [| reflexivity].
  exists f; split; [exact Hf |]; repeat split.
  f_equal. destruct candi2 as [n2 cs2 k2 d2]; cbn in *; subst; reflexivity.
Qed.

(** ** [_RectShapeCollision] *)

(** The two ways the entry point returns. *)
Lemma collide_inv `{Collaborators}
    (selfBody incidBody : PyBodyObject) (l l' : list PyContact) (b : bool) :
  _RectShapeCollision selfBody incidBody l = Ok (b, l') ->
  exists candi : _Candidate,
    collect_contacts selfBody incidBody = Ok (b, candi)
    /\ (if b
        then exists r : sat_result,
               _SATFindCollisionProperty selfBody incidBody
                 (local_box (body_shape selfBody))
                 (local_box (body_shape incidBody)) candi = Ok r
               /\ l' = l ++ map (make_contact r)
                               (seq 0 (contact_size (sat_candi r)))
        else l' = l).
Proof.
  unfold _RectShapeCollision; intro Hrun.
  destruct (collect_contacts selfBody incidBody) as [[hit candi] | flt];
    cbn in Hrun; [| discriminate].
  exists candi; destruct hit; cbn in Hrun.
  - match type of Hrun with
    | bind ?m _ = _ => destruct m as [r | flt] eqn:Hsat
    end; cbn in Hrun; [| discriminate].
    injection Hrun as <- <-; split; [reflexivity |].
    exists r; split; reflexivity.
  - injection Hrun as <- <-; split; reflexivity.
Qed.

Lemma collect_contacts_hit `{Collaborators}
    (selfBody incidBody : PyBodyObject) (b : bool) (candi : _Candidate) :
  collect_contacts selfBody incidBody = Ok (b, candi) ->
  exists clipped : _Candidate,
    _ClipTest (local_box (body_shape selfBody))
      (map (PyBodyObject_GetRelativePos selfBody incidBody)
           (corners (body_shape incidBody))) candi_init = Ok (b, clipped).
Proof.
  unfold collect_contacts; intro Hrun.
  destruct (_ClipTest _ _ _) as [[hit c] | flt]; cbn [bind fst snd] in Hrun;
    [| discriminate].
  destruct hit; cbn [negb] in Hrun.
  - match type of Hrun with
    | bind ?m _ = _ => destruct m as [c' | flt]
    end; cbn [bind] in Hrun; [| discriminate].
    injection Hrun as <- <-; exists c; reflexivity.
  - injection Hrun as <- <-; exists c; reflexivity.
Qed.

(** The records stamped from a finished candidate. *)
Lemma emitted_contacts (ref inc : PyBodyObject) (cand : _Candidate)
    (r : sat_result) (c : PyContact) :
  ans_ref r = ref -> ans_inc r = inc ->
  sat_candi r = finish_candidate ref inc cand ->
  In c (map (make_contact r) (seq 0 (contact_size (sat_candi r)))) ->
  exists p : PyVector2,
    In p (Candidate.contacts cand)
    /\ Contact.ref_body c = ref
    /\ Contact.inc_body c = inc
    /\ Contact.normal c = PyVector2_Rotate (Candidate.normal cand) (fRotation ref)
    /\ Contact.pos c = to_world ref p
    /\ Contact.kFactor c
       = compute_kFactor ref inc (Contact.normal c) (Contact.pos c)
    /\ Contact.depth c = Candidate.min_depth cand.
Proof.
  intros Href Hinc Hcandi Hin.
  apply in_map_iff in Hin as (i & <- & Hi).
  apply in_seq in Hi as [_ Hi]; cbn in Hi.
  unfold make_contact; cbn.
  rewrite Href, Hinc, Hcandi in *; clear Href Hinc Hcandi.
  unfold contact_size, finish_candidate in *; cbn in *.
  rewrite length_map in Hi.
  exists (nth i (Candidate.contacts cand) vec0); split; [apply nth_In; exact Hi |].
  repeat split.
  - rewrite (nth_indep _ vec0 (to_world ref vec0)) by (rewrite length_map; exact Hi).
    apply map_nth.
  - set (n := PyVector2_Rotate _ _).
    set (ws := map (to_world ref) _).
    rewrite (nth_indep _ 0 (compute_kFactor ref inc n vec0))
      by (unfold ws; rewrite !length_map; exact Hi).
    apply map_nth.
Qed.

(** A reported collision, from the candidate handed to the face selection
    down to the appended records. *)
Lemma collide_reported `{Collaborators}
    (selfBody incidBody : PyBodyObject) (l l' : list PyContact) :
  _RectShapeCollision selfBody incidBody l = Ok (true, l') ->
  let box_self := local_box (body_shape selfBody) in
  let box_inc := local_box (body_shape incidBody) in
  exists (candi : _Candidate) (f : CollisionFace) (new : list PyContact),
    let k := choose_k selfBody incidBody box_self box_inc candi in
    let ref := sel k selfBody incidBody in
    let inc := sel k incidBody selfBody in
    collect_contacts selfBody incidBody = Ok (true, candi)
    /\ face_id selfBody incidBody box_self box_inc candi k = Some f
    /\ l' = l ++ new
    /\ Forall (fun c =>
         exists p : PyVector2,
           In p (conts selfBody incidBody candi k)
           /\ on_face f (sel k box_self box_inc) p = false
           /\ Contact.ref_body c = ref
           /\ Contact.inc_body c = inc
           /\ Contact.normal c = PyVector2_Rotate (face_normal f) (fRotation ref)
           /\ Contact.pos c = to_world ref p
           /\ Contact.kFactor c
              = compute_kFactor ref inc (Contact.normal c) (Contact.pos c)) new.
Proof.
  intros Hrun box_self box_inc.
  apply collide_inv in Hrun as (candi & Hcollect & r & Hsat & ->).
  pose proof (SAT_inv _ _ _ _ _ _ Hsat) as (f & Hf & Href & Hinc & Hcandi).
  fold box_self box_inc in Hf, Href, Hinc, Hcandi.
  exists candi, f, (map (make_contact r) (seq 0 (contact_size (sat_candi r)))).
  cbn zeta; repeat split; try assumption.
  apply Forall_forall; intros c Hc.
  rewrite Href, Hinc in Hcandi.
  destruct (emitted_contacts _ _ _ r c Href Hinc Hcandi Hc)
    as (p & Hp & H1 & H2 & H3 & H4 & H5 & _).
  cbn in Hp, H3.
  apply filter_In in Hp as [Hp Hoff]; apply negb_true_iff in Hoff.
  exists p; repeat split; assumption.
Qed.

(** ** Return value and appended contacts *)

(** C1 (amended): the entry point returns [true] exactly when the clip test
    finds an edge of the incident body overlapping the box of [selfBody];
    the list only grows by appending, nothing is appended on [false], so
    whenever a contact is appended the result is [true].  A [true] result
    with nothing appended is possible. *)
Theorem collide_result_and_appended `{Collaborators}
    (selfBody incidBody : PyBodyObject) (l l' : list PyContact) (b : bool) :
  _RectShapeCollision selfBody incidBody l = Ok (b, l') ->
  exists new : list PyContact,
    l' = l ++ new
    /\ (b = false -> new = [])
    /\ (new <> [] -> b = true)
    /\ exists clipped : _Candidate,
         _ClipTest (local_box (body_shape selfBody))
           (map (PyBodyObject_GetRelativePos selfBody incidBody)
                (corners (body_shape incidBody))) candi_init = Ok (b, clipped).
Proof.
  intro Hrun.
  apply collide_inv in Hrun as (candi & Hcollect & Hrest).
  apply collect_contacts_hit in Hcollect as Hclip.
  destruct b.
  - destruct Hrest as (r & _ & ->).
    eexists; split; [reflexivity |].
    split; [discriminate |]; split; [reflexivity | exact Hclip].
  - subst l'; exists []; split; [symmetry; apply app_nil_r |].
    split; [reflexivity |]; split; [intro Hne; contradiction Hne; reflexivity |].
    exact Hclip.
Qed.

(** ** Reference-face selection *)

(** C2 (amended): the body with the strictly smaller minimum sum becomes the
    reference body; when [selfBody]'s minimum is not strictly smaller, in
    particular on an exact tie, the reference body is [incBody]. *)
Theorem reference_body_choice `{Collaborators}
    (selfBody incBody : PyBodyObject) (selfBox incBox : AABBBox)
    (candi : _Candidate) (r : sat_result) :
  _SATFindCollisionProperty selfBody incBody selfBox incBox candi = Ok r ->
  let d0 := min_dep selfBody incBody selfBox incBox candi 0 in
  let d1 := min_dep selfBody incBody selfBox incBox candi 1 in
  (d0 < d1 -> ans_ref r = selfBody /\ ans_inc r = incBody)
  /\ (d1 < d0 -> ans_ref r = incBody /\ ans_inc r = selfBody)
  /\ (d0 = d1 -> ans_ref r = incBody /\ ans_inc r = selfBody).
Proof.
  intros Hrun d0 d1.
  apply SAT_inv in Hrun as (f & _ & Href & Hinc & _).
  unfold choose_k in Href, Hinc; fold d0 d1 in Href, Hinc.
  destruct (Rltb d0 d1) eqn:Hlt.
  - apply Rltb_true in Hlt; cbn in Href, Hinc.
    split; [intros _; split; assumption |]; split; intro; lra.
  - apply Rltb_false in Hlt; cbn in Href, Hinc.
    split; [intro; lra |]; split; intros _; split; assumption.
Qed.

(** C9: after the filtering step the candidate holds exactly the contacts
    of the reference body's frame whose coordinate on the normal axis of
    the chosen face is not near-equal to the coordinate of that face; the
    contacts returned are these, moved to world space. *)
Theorem surviving_contacts_off_face `{Collaborators}
    (selfBody incBody : PyBodyObject) (selfBox incBox : AABBBox)
    (candi : _Candidate) (r : sat_result) :
  _SATFindCollisionProperty selfBody incBody selfBox incBox candi = Ok r ->
  let k := choose_k selfBody incBody selfBox incBox candi in
  exists (f : CollisionFace) (kept : list PyVector2),
    face_id selfBody incBody selfBox incBox candi k = Some f
    /\ filter_contacts (Some f) (sel k selfBox incBox)
         (conts selfBody incBody candi k)
         (Candidate.mk (Candidate.normal candi) [] (Candidate.kFactors candi)
            (min_dep selfBody incBody selfBox incBox candi k))
       = Ok (Candidate.mk (face_normal f) kept (Candidate.kFactors candi)
               (min_dep selfBody incBody selfBox incBox candi k))
    /\ Forall (fun c =>
         In c (conts selfBody incBody candi k)
         /\ PyMath_IsNearEqual (axis_coord f c)
              (face_coord f (sel k selfBox incBox)) = false) kept
    /\ Candidate.contacts (sat_candi r) = map (to_world (ans_ref r)) kept.
Proof.
  intros Hrun k.
  pose proof (SAT_inv _ _ _ _ _ _ Hrun) as (f & Hf & Href & Hinc & Hcandi).
  fold k in Hf, Href, Hinc, Hcandi.
  unfold _SATFindCollisionProperty in Hrun; fold k in Hrun.
  destruct (MAX_CONTACTS <? contact_size candi)%nat; [discriminate |].
  rewrite Hf in Hrun.
  match type of Hrun with
  | bind ?m _ = _ => destruct m as [candi2 | flt] eqn:Hfilter
  end; cbn [bind] in Hrun; [| discriminate].
  pose proof Hfilter as Hkept.
  apply filter_contacts_inv in Hkept as (f' & Hf' & Hn & Hcs & Hk & Hd);
    [| reflexivity].
  injection Hf' as <-.
  exists f, (Candidate.contacts candi2); split; [exact Hf |].
  split.
  - rewrite Hfilter; f_equal.
    destruct candi2 as [n2 cs2 k2 d2]; cbn in *; subst; reflexivity.
  - split.
    + apply Forall_forall; intros c Hc; rewrite Hcs in Hc.
      apply filter_In in Hc as [Hc Hoff]; apply negb_true_iff in Hoff.
      split; assumption.
    + rewrite Hcandi; cbn; rewrite Hcs; reflexivity.
Qed.

(** ** Normal and k-factor of the emitted contacts *)

(** C7: every contact of a reported collision carries, as its normal, the
    local axis [(-1,0)], [(1,0)], [(0,-1)] or [(0,1)] of the chosen face
    (left, right, bottom, top) rotated by the reference body's rotation
    angle; this normal has unit length. *)
Theorem normal_is_rotated_face_axis `{Collaborators}
    (selfBody incidBody : PyBodyObject) (l l' : list PyContact) :
  _RectShapeCollision selfBody incidBody l = Ok (true, l') ->
  let box_self := local_box (body_shape selfBody) in
  let box_inc := local_box (body_shape incidBody) in
  exists (candi : _Candidate) (f : CollisionFace) (new : list PyContact),
    collect_contacts selfBody incidBody = Ok (true, candi)
    /\ face_id selfBody incidBody box_self box_inc candi
         (choose_k selfBody incidBody box_self box_inc candi) = Some f
    /\ l' = l ++ new
    /\ Forall (fun c =>
         Contact.normal c
         = PyVector2_Rotate
             match f with
             | CF_LEFT => mkVec (-1) 0
             | CF_RIGHT => mkVec 1 0
             | CF_BOTTOM => mkVec 0 (-1)
             | CF_TOP => mkVec 0 1
             end (fRotation (Contact.ref_body c))
         /\ PyVector2_Dot (Contact.normal c) (Contact.normal c) = 1) new.
Proof.
  intros Hrun box_self box_inc.
  apply collide_reported in Hrun as (candi & f & new & Hcollect & Hf & Hl & Hall).
  exists candi, f, new; repeat split; try assumption.
  eapply Forall_impl; [| exact Hall].
  intros c (p & _ & _ & Href & _ & Hn & _).
  assert (Hnormal : Contact.normal c
                    = PyVector2_Rotate (face_normal f) (fRotation (Contact.ref_body c)))
    by (rewrite Href; exact Hn).
  split.
  - rewrite Hnormal; destruct f; reflexivity.
  - rewrite Hnormal, Rotate_norm; apply face_normal_unit.
Qed.



(** ** The 16-slot buffer *)

Lemma SAT_sizes `{Collaborators}
    (selfBody incBody : PyBodyObject) (selfBox incBox : AABBBox)
    (candi : _Candidate) (r : sat_result) :
  _SATFindCollisionProperty selfBody incBody selfBox incBox candi = Ok r ->
  (contact_size (sat_candi r) <= contact_size candi)%nat
  /\ length (Candidate.kFactors (sat_candi r)) = contact_size (sat_candi r).
Proof.
  intro Hrun.
  apply SAT_inv in Hrun as (f & _ & _ & _ & ->).
  unfold contact_size, finish_candidate; cbn.
  rewrite !length_map; split; [| reflexivity].
  etransitivity; [apply filter_length_le |].
  rewrite conts_length; reflexivity.
Qed.

Lemma SAT_no_overflow `{Collaborators}
    (selfBody incBody : PyBodyObject) (selfBox incBox : AABBBox)
    (candi : _Candidate) :
  (contact_size candi <= MAX_CONTACTS)%nat ->
  _SATFindCollisionProperty selfBody incBody selfBox incBox candi
  <> Fault BufferOverflow.
Proof.
  intros Hsize Hrun; unfold _SATFindCollisionProperty in Hrun.
  destruct (MAX_CONTACTS <? contact_size candi)%nat eqn:Hover.
  - apply Nat.ltb_lt in Hover; lia.
  - match type of Hrun with
    | bind ?m _ = _ => destruct m as [candi2 | flt] eqn:Hfilter
    end; cbn [bind] in Hrun; [discriminate |].
    injection Hrun as ->.
    revert Hfilter; apply filter_contacts_no_overflow; [reflexivity |].
    rewrite conts_length; exact Hsize.
Qed.

(** C8: [_ClipTest] always returns with at most 12 points in the buffer;
    the entry point adds at most 4 corners, so the candidate handed to the
    face selection holds at most 16; the face selection returns no more
    contacts than it received, with as many k-factors; no call of the entry
    point writes past the 16 slots. *)
Theorem contact_buffer_in_bounds `{Collaborators}
    (selfBody incidBody : PyBodyObject) (l : list PyContact)
    (b : AABBBox) (points : list PyVector2) (candi0 : _Candidate) :
  match _ClipTest b points candi0 with
  | Ok (_, candi) => (contact_size candi <= 12)%nat
  | Fault _ => False
  end
  /\ match collect_contacts selfBody incidBody with
     | Ok (hit, candi) =>
         (contact_size candi <= MAX_CONTACTS)%nat
         /\ match _SATFindCollisionProperty selfBody incidBody
                    (local_box (body_shape selfBody))
                    (local_box (body_shape incidBody)) candi with
            | Ok r =>
                (contact_size (sat_candi r) <= MAX_CONTACTS)%nat
                /\ length (Candidate.kFactors (sat_candi r))
                   = contact_size (sat_candi r)
            | Fault flt => flt = FaceUnassigned
            end
     | Fault _ => False
     end
  /\ _RectShapeCollision selfBody incidBody l <> Fault BufferOverflow.
Proof.
  split; [| split].
  - destruct (ClipTest_total b points candi0) as (hit & c & -> & Hsz); exact Hsz.
  - destruct (collect_contacts_total selfBody incidBody) as (hit & c & -> & Hsz).
    split; [exact Hsz |].
    pose proof (SAT_no_overflow selfBody incidBody
                  (local_box (body_shape selfBody))
                  (local_box (body_shape incidBody)) c Hsz) as Hno.
    destruct (_SATFindCollisionProperty _ _ _ _ c) as [r | flt] eqn:Hsat.
    + apply SAT_sizes in Hsat as [Hle Hk]; split; [lia | exact Hk].
    + destruct flt; [contradiction Hno; reflexivity | reflexivity].
  - unfold _RectShapeCollision.
    destruct (collect_contacts_total selfBody incidBody) as (hit & c & -> & Hsz).
    cbn [bind fst snd]; destruct hit; cbn [negb]; [| discriminate].
    pose proof (SAT_no_overflow selfBody incidBody
                  (local_box (body_shape selfBody))
                  (local_box (body_shape incidBody)) c Hsz) as Hno.
    destruct (_SATFindCollisionProperty _ _ _ _ c) as [r | flt];
      cbn [bind]; [discriminate |].
    intro Hflt; injection Hflt as ->; apply Hno; reflexivity.
Qed.

(** ** Bounding-box update *)

(** C10: on a body whose shape is not tagged [ST_RECT] the update leaves
    the body, its shape and the shape's box as they were. *)
Theorem UpdateAABB_non_rect_unchanged `{Collaborators} (body : PyBodyObject) :
  type (shape (body_shape body)) <> ST_RECT ->
  _RectShapeUpdateAABB body = body.
Proof.
  intro Htype; unfold _RectShapeUpdateAABB.
  destruct (type (shape (body_shape body))) as [| tag]; cbn.
  - contradiction Htype; reflexivity.
  - reflexivity.
Qed.

(** * The concrete scenes, evaluated *)

(** One step of evaluation: decide a comparison, a maximum, a minimum or an
    absolute value whose arguments are numerals. *)
Ltac rstep :=
  match goal with
  | |- context [Rltb ?a ?b] =>
      first [ rewrite (proj2 (Rltb_true a b)) by lra
            | rewrite (proj2 (Rltb_false a b)) by lra ]
  | |- context [Req_bool ?a ?b] =>
      first [ rewrite (proj2 (Req_bool_true a b)) by lra
            | rewrite (proj2 (Req_bool_false a b)) by lra ]
  | |- context [Rmax ?a ?b] =>
      first [ rewrite (Rmax_left a b) by lra | rewrite (Rmax_right a b) by lra ]
  | |- context [Rmin ?a ?b] =>
      first [ rewrite (Rmin_left a b) by lra | rewrite (Rmin_right a b) by lra ]
  | |- context [Rabs ?a] =>
      first [ rewrite (Rabs_pos_eq a) by lra | rewrite (Rabs_left1 a) by lra ]
  end.

(** Unfold the kernel and the collaborators of [SpecModel], leaving real
    arithmetic untouched. *)
Ltac rsimpl :=
  cbv beta iota zeta fix delta
    [real imag left right bottom top fst snd c_diff c_sum andb negb orb
     _ClipTest for_each clip_edge clip_endpoint clip_flagged point_at nth
     set_flag push_contact contact_size reset_contacts bind
     apart has_ip clip_candi
     Candidate.normal Candidate.contacts Candidate.kFactors Candidate.min_depth
     Collision_LiangBarskey PyVector2_Equal PyMath_IsNearEqual AABB_IsIn
     AABB_Clear AABB_ExpandTo CollisionFace_range SpecModel.collaborators
     SpecModel.LiangBarskey SpecModel.clip_param SpecModel.and_then
     SpecModel.along SpecModel.Equal SpecModel.IsNearEqual SpecModel.IsIn
     SpecModel.Clear SpecModel.ExpandTo SpecModel.face_range
     Nat.ltb Nat.leb length app MAX_CONTACTS Nat.modulo Nat.divmod Nat.add Nat.sub
     candi_init add_corner combine
     min_face min_step fold_left deps face_distance sel
     filter_contacts keep_off_face with_normal PyVector2_Set].

Ltac reval :=
  pose proof (eq_refl : SpecModel.epsilon = / 10 ^ 9);
  pose proof (eq_refl : DBL_MAX = (2 - / 2 ^ 52) * 2 ^ 1023);
  rsimpl; repeat (rstep; rsimpl).

(** Close an equation between evaluated structures: descend to the real
    components and compare them arithmetically. *)
Ltac rfinish :=
  match goal with
  | |- @eq R _ _ => lra
  | |- _ => progress f_equal; rfinish
  | |- _ => reflexivity
  end.

Ltac emit_unfold :=
  unfold finish_candidate, make_contact, contact_size, to_world, compute_kFactor;
  cbn [sat_candi ans_ref ans_inc Candidate.contacts Candidate.normal
       Candidate.kFactors Candidate.min_depth map length seq nth app].

Lemma Rotate_0 (v : PyVector2) : PyVector2_Rotate v 0 = v.
Proof.
  destruct v as [x y]; unfold PyVector2_Rotate; cbn [real imag].
  rewrite cos_0, sin_0; f_equal; ring.
Qed.

Ltac emit_calc :=
  rewrite ?Rotate_0;
  unfold c_sum, c_diff, PyVector2_Dot, PyVector2_fCross, PyVector2_Cross;
  cbn [real imag].

(** ** Unrotated rectangle bodies *)

Lemma rect_body_corners (w h x y : R) :
  corners (body_shape (rect_body w h x y))
  = [mkVec (- w / 2) (- h / 2); mkVec (w / 2) (- h / 2);
     mkVec (w / 2) (h / 2); mkVec (- w / 2) (h / 2)].
Proof.
  unfold corners, rect_body, PyRectShape_New, _RectShape_InitInternal, PyVector2_Set;
    cbn [body_shape bottomleft bottomright topright topleft].
  rewrite !Rotate_0; reflexivity.
Qed.

Lemma rect_body_local_box (w h x y : R) :
  local_box (body_shape (rect_body w h x y))
  = mkBox (- w / 2) (w / 2) (- h / 2) (h / 2).
Proof.
  unfold local_box, rect_body, PyRectShape_New, _RectShape_InitInternal, PyVector2_Set;
    cbn [body_shape bottomleft bottomright topright topleft].
  rewrite !Rotate_0; reflexivity.
Qed.

Lemma rect_body_relative (w h x y w' h' x' y' : R) (p : PyVector2) :
  SpecModel.GetRelativePos (rect_body w h x y) (rect_body w' h' x' y') p
  = mkVec (real p + x' - x) (imag p + y' - y).
Proof.
  unfold SpecModel.GetRelativePos, SpecModel.GetGlobalPos, rect_body;
    cbn [fRotation vecPosition].
  rewrite Ropp_0, !Rotate_0; unfold c_diff, c_sum; cbn [real imag]; f_equal; ring.
Qed.

Lemma unit_local_box (x y : R) :
  local_box (body_shape (rect_body 1 1 x y)) = unit_box.
Proof. rewrite rect_body_local_box; unfold unit_box; rfinish. Qed.

Lemma outer_box : local_box (body_shape outer_body) = ten_box.
Proof. unfold outer_body; rewrite rect_body_local_box; unfold ten_box; rfinish. Qed.

Lemma inner_box : local_box (body_shape inner_body) = unit_box.
Proof. apply unit_local_box. Qed.

Lemma tie_boxA : local_box (body_shape tie_bodyA) = unit_box.
Proof. apply unit_local_box. Qed.

Lemma tie_boxB : local_box (body_shape tie_bodyB) = unit_box.
Proof. apply unit_local_box. Qed.

Lemma graze_boxA : local_box (body_shape graze_bodyA) = unit_box.
Proof. apply unit_local_box. Qed.

Lemma graze_boxB : local_box (body_shape graze_bodyB) = unit_box.
Proof. apply unit_local_box. Qed.

(** ** Two unit squares overlapping in a quarter *)

Lemma tie_clip : _ClipTest unit_box tie_in_self candi_init = Ok (true, tie_clipped).
Proof. unfold unit_box, tie_in_self, tie_clipped; reval; rfinish. Qed.

Lemma tie_collect : collect_contacts tie_bodyA tie_bodyB = Ok (true, tie_candi).
Proof.
  unfold collect_contacts, tie_bodyA, tie_bodyB.
  rewrite !rect_body_local_box, !rect_body_corners.
  cbn [map PyBodyObject_GetRelativePos SpecModel.collaborators].
  rewrite !rect_body_relative; cbn [real imag].
  replace (_ClipTest _ _ _) with (_ClipTest unit_box tie_in_self candi_init)
    by (unfold unit_box, tie_in_self; f_equal; rfinish).
  rewrite tie_clip.
  unfold tie_clipped, tie_candi; reval; rfinish.
Qed.

Lemma tie_conts : conts tie_bodyA tie_bodyB tie_candi 1 = tie_conts_inc.
Proof.
  unfold conts, tie_bodyA, tie_bodyB, tie_candi, tie_conts_inc.
  cbn [sel map Candidate.contacts PyBodyObject_GetRelativePos
       SpecModel.collaborators].
  rewrite !rect_body_relative; cbn [real imag]; rfinish.
Qed.

Lemma tie_min_face_self :
  min_face (deps unit_box (Candidate.contacts tie_candi)) = (1, Some CF_RIGHT).
Proof. unfold unit_box, tie_candi; reval; rfinish. Qed.

Lemma tie_min_face_inc :
  min_face (deps unit_box tie_conts_inc) = (1, Some CF_LEFT).
Proof. unfold unit_box, tie_conts_inc; reval; rfinish. Qed.

Lemma tie_sat :
  _SATFindCollisionProperty tie_bodyA tie_bodyB unit_box unit_box tie_candi
  = Ok tie_result.
Proof.
  unfold _SATFindCollisionProperty; cbv zeta.
  unfold choose_k, min_dep, face_id.
  replace (conts tie_bodyA tie_bodyB tie_candi 0) with (Candidate.contacts tie_candi)
    by reflexivity.
  rewrite !tie_conts; cbn [sel].
  rewrite !tie_min_face_self, !tie_min_face_inc; cbn [fst snd].
  rewrite (proj2 (Rltb_false 1 1)) by lra; cbn [sel].
  rewrite !tie_conts, !tie_min_face_inc.
  unfold tie_conts_inc, unit_box, tie_candi, tie_result, tie_kept; reval; rfinish.
Qed.

Lemma tie_collide :
  _RectShapeCollision tie_bodyA tie_bodyB [] = Ok (true, tie_contacts).
Proof.
  unfold _RectShapeCollision.
  rewrite tie_collect; cbn [bind fst snd negb].
  rewrite tie_boxA, tie_boxB, tie_sat; cbn [bind].
  unfold tie_contacts, tie_result, tie_kept; emit_unfold.
  change (fRotation tie_bodyB) with 0.
  change (vecPosition tie_bodyB) with (mkVec (1/2) (1/4)).
  change (vecPosition tie_bodyA) with (mkVec 0 0).
  change (fMass tie_bodyB) with 1.
  change (fMass tie_bodyA) with 1.
  change (rInertia (shape (body_shape tie_bodyB))) with 1.
  change (rInertia (shape (body_shape tie_bodyA))) with 1.
  emit_calc; rfinish.
Qed.

(** ** A unit square inside a 10 x 10 square *)

Lemma contain_clip :
  _ClipTest ten_box inner_in_outer candi_init = Ok (true, contain_candi).
Proof. unfold ten_box, inner_in_outer, contain_candi; reval; rfinish. Qed.

Lemma contain_clip_apart :
  _ClipTest unit_box outer_in_inner candi_init = Ok (false, candi_init).
Proof. unfold unit_box, outer_in_inner; reval; rfinish. Qed.

Lemma contain_collect :
  collect_contacts outer_body inner_body = Ok (true, contain_candi).
Proof.
  unfold collect_contacts, outer_body, inner_body.
  rewrite !rect_body_local_box, !rect_body_corners.
  cbn [map PyBodyObject_GetRelativePos SpecModel.collaborators].
  rewrite !rect_body_relative; cbn [real imag].
  replace (_ClipTest _ _ _) with (_ClipTest ten_box inner_in_outer candi_init)
    by (unfold ten_box, inner_in_outer; f_equal; rfinish).
  rewrite contain_clip.
  unfold contain_candi, inner_in_outer; reval; rfinish.
Qed.

Lemma contain_collect_apart :
  collect_contacts inner_body outer_body = Ok (false, candi_init).
Proof.
  unfold collect_contacts, outer_body, inner_body.
  rewrite !rect_body_local_box, !rect_body_corners.
  cbn [map PyBodyObject_GetRelativePos SpecModel.collaborators].
  rewrite !rect_body_relative; cbn [real imag].
  replace (_ClipTest _ _ _) with (_ClipTest unit_box outer_in_inner candi_init)
    by (unfold unit_box, outer_in_inner; f_equal; rfinish).
  rewrite contain_clip_apart; reflexivity.
Qed.

Lemma contain_conts : conts outer_body inner_body contain_candi 1 = unit_corners.
Proof.
  unfold conts, outer_body, inner_body, contain_candi, inner_in_outer, unit_corners.
  cbn [sel map Candidate.contacts PyBodyObject_GetRelativePos
       SpecModel.collaborators].
  rewrite !rect_body_relative; cbn [real imag]; rfinish.
Qed.

Lemma contain_min_face_self :
  min_face (deps ten_box inner_in_outer) = (16, Some CF_LEFT).
Proof. unfold ten_box, inner_in_outer; reval; rfinish. Qed.

Lemma contain_min_face_inc :
  min_face (deps unit_box unit_corners) = (2, Some CF_LEFT).
Proof. unfold unit_box, unit_corners; reval; rfinish. Qed.

Lemma contain_sat :
  _SATFindCollisionProperty outer_body inner_body ten_box unit_box contain_candi
  = Ok (mkSat (finish_candidate inner_body outer_body contain_kept)
              inner_body outer_body).
Proof.
  unfold _SATFindCollisionProperty; cbv zeta.
  unfold choose_k, min_dep, face_id.
  replace (conts outer_body inner_body contain_candi 0) with inner_in_outer
    by reflexivity.
  rewrite !contain_conts; cbn [sel].
  rewrite !contain_min_face_self, !contain_min_face_inc; cbn [fst snd].
  rewrite (proj2 (Rltb_false 16 2)) by lra; cbn [sel].
  rewrite !contain_conts, !contain_min_face_inc.
  unfold unit_corners, unit_box, contain_candi, inner_in_outer, contain_kept;
    reval; rfinish.
Qed.

Lemma contain_collide :
  _RectShapeCollision outer_body inner_body [] = Ok (true, contain_contacts).
Proof.
  unfold _RectShapeCollision.
  rewrite contain_collect; cbn [bind fst snd negb].
  rewrite outer_box, inner_box, contain_sat; cbn [bind].
  unfold contain_kept, contain_contacts; emit_unfold.
  change (fRotation inner_body) with 0.
  change (vecPosition inner_body) with (mkVec (-1) (1/5)).
  change (vecPosition outer_body) with (mkVec 0 0).
  change (fMass inner_body) with 1.
  change (fMass outer_body) with 1.
  change (rInertia (shape (body_shape inner_body))) with 1.
  change (rInertia (shape (body_shape outer_body))) with 1.
  emit_calc; rfinish.
Qed.

Lemma contain_collide_apart :
  _RectShapeCollision inner_body outer_body [] = Ok (false, []).
Proof.
  unfold _RectShapeCollision; rewrite contain_collect_apart; reflexivity.
Qed.

(** ** Two unit squares overlapping by less than the tolerance *)

Lemma graze_clip :
  _ClipTest unit_box graze_in_self candi_init = Ok (true, graze_clipped).
Proof. unfold unit_box, graze_in_self, graze_clipped; reval; rfinish. Qed.

Lemma graze_collect :
  collect_contacts graze_bodyA graze_bodyB = Ok (true, graze_candi).
Proof.
  unfold collect_contacts, graze_bodyA, graze_bodyB.
  rewrite !rect_body_local_box, !rect_body_corners.
  cbn [map PyBodyObject_GetRelativePos SpecModel.collaborators].
  rewrite !rect_body_relative; cbn [real imag].
  replace (_ClipTest _ _ _) with (_ClipTest unit_box graze_in_self candi_init)
    by (unfold unit_box, graze_in_self, graze_depth; f_equal; rfinish).
  rewrite graze_clip.
  unfold graze_clipped, graze_candi, graze_depth; reval; rfinish.
Qed.

Lemma graze_conts : conts graze_bodyA graze_bodyB graze_candi 1 = graze_conts_inc.
Proof.
  unfold conts, graze_bodyA, graze_bodyB, graze_candi, graze_conts_inc.
  cbn [sel map Candidate.contacts PyBodyObject_GetRelativePos
       SpecModel.collaborators].
  rewrite !rect_body_relative; unfold graze_depth; cbn [real imag]; rfinish.
Qed.

Lemma graze_min_face_self :
  min_face (deps unit_box (Candidate.contacts graze_candi))
  = (2 * / 10 ^ 10, Some CF_RIGHT).
Proof. unfold unit_box, graze_candi; reval; rfinish. Qed.

Lemma graze_min_face_inc :
  min_face (deps unit_box graze_conts_inc) = (2 * / 10 ^ 10, Some CF_LEFT).
Proof. unfold unit_box, graze_conts_inc; reval; rfinish. Qed.

Lemma graze_sat :
  _SATFindCollisionProperty graze_bodyA graze_bodyB unit_box unit_box graze_candi
  = Ok (mkSat (finish_candidate graze_bodyB graze_bodyA
                 (Candidate.mk (mkVec (-1) 0) [] [] (2 * / 10 ^ 10)))
              graze_bodyB graze_bodyA).
Proof.
  unfold _SATFindCollisionProperty; cbv zeta.
  unfold choose_k, min_dep, face_id.
  replace (conts graze_bodyA graze_bodyB graze_candi 0)
    with (Candidate.contacts graze_candi) by reflexivity.
  rewrite !graze_conts; cbn [sel].
  rewrite !graze_min_face_self, !graze_min_face_inc; cbn [fst snd].
  rewrite (proj2 (Rltb_false _ _)) by lra; cbn [sel].
  rewrite !graze_conts, !graze_min_face_inc.
  unfold graze_conts_inc, unit_box, graze_candi; reval; rfinish.
Qed.

Lemma graze_collide :
  _RectShapeCollision graze_bodyA graze_bodyB [] = Ok (true, []).
Proof.
  unfold _RectShapeCollision.
  rewrite graze_collect; cbn [bind fst snd negb].
  rewrite graze_boxA, graze_boxB, graze_sat; cbn [bind].
  reflexivity.
Qed.

(** ** A rectangle shape constructed with a quarter turn *)

Lemma quarter_turn_corners :
  corners quarter_turn_shape
  = [mkVec 1 (-1); mkVec 1 1; mkVec (-1) 1; mkVec (-1) (-1)].
Proof.
  unfold quarter_turn_shape, corners, PyRectShape_New, _RectShape_InitInternal,
    PyVector2_Set, PyVector2_Rotate;
    cbn [bottomleft bottomright topright topleft real imag].
  rewrite cos_PI2, sin_PI2; rfinish.
Qed.

Lemma quarter_turn_box : local_box quarter_turn_shape = mkBox 1 (-1) (-1) 1.
Proof.
  unfold quarter_turn_shape, local_box, PyRectShape_New, _RectShape_InitInternal,
    PyVector2_Set, PyVector2_Rotate, AABB_Gen; cbn [bottomleft topright real imag].
  rewrite cos_PI2, sin_PI2; rfinish.
Qed.

Lemma quarter_turn_hull :
  fold_left AABB_ExpandTo (corners quarter_turn_shape)
            (AABB_Clear (box (shape quarter_turn_shape)))
  = mkBox (-1) 1 (-1) 1.
Proof. rewrite quarter_turn_corners; reval; rfinish. Qed.

(** ** Two bars crossing *)


















(** * The claims on the scenes *)

(** ** Return value *)

(** C1 (as stated, refuted): on the grazing scene the entry point returns
    [true] and appends nothing, so "true iff a contact was appended"
    fails. *)
Lemma collide_true_without_contact :
  _RectShapeCollision graze_bodyA graze_bodyB [] = Ok (true, [])
  /\ ~ (forall (b : bool) (l' : list PyContact),
          _RectShapeCollision graze_bodyA graze_bodyB [] = Ok (b, l') ->
          (b = true <-> (length (@nil PyContact) < length l')%nat)).
Proof.
  split; [exact graze_collide |].
  intro Hclaim.
  destruct (Hclaim true [] graze_collide) as [Hlen _].
  specialize (Hlen eq_refl); cbn in Hlen; lia.
Qed.

Lemma collide_result_and_appended_witness :
  _RectShapeCollision tie_bodyA tie_bodyB [] = Ok (true, tie_contacts)
  /\ exists new : list PyContact,
       tie_contacts = [] ++ new
       /\ (true = false -> new = [])
       /\ (new <> [] -> true = true)
       /\ exists clipped : _Candidate,
            _ClipTest (local_box (body_shape tie_bodyA))
              (map (PyBodyObject_GetRelativePos tie_bodyA tie_bodyB)
                   (corners (body_shape tie_bodyB))) candi_init
            = Ok (true, clipped).
Proof.
  split; [exact tie_collide |].
  exact (collide_result_and_appended tie_bodyA tie_bodyB [] tie_contacts true
           tie_collide).
Defined.

(** ** Symmetry *)

(** C3 (the code at the failing input): with the unit square as
    [selfBody] and the 10 x 10 square around it as [incidBody] the entry
    point returns [false]; with the arguments swapped it returns [true] and
    appends two contacts. *)
Theorem collide_asymmetric_on_containment :
  _RectShapeCollision inner_body outer_body [] = Ok (false, [])
  /\ _RectShapeCollision outer_body inner_body [] = Ok (true, contain_contacts)
  /\ contain_contacts <> [].
Proof.
  split; [exact contain_collide_apart |].
  split; [exact contain_collide | discriminate].
Qed.

(** ** Reference body on a tie *)

Lemma tie_bodies_differ : tie_bodyB <> tie_bodyA.
Proof.
  intro Heq.
  apply (f_equal (fun b => real (vecPosition b))) in Heq; cbn in Heq; lra.
Qed.

Lemma tie_min_dep (k : nat) :
  min_dep tie_bodyA tie_bodyB unit_box unit_box tie_candi k = 1.
Proof.
  unfold min_dep; destruct k as [| k].
  - replace (conts tie_bodyA tie_bodyB tie_candi 0)
      with (Candidate.contacts tie_candi) by reflexivity.
    cbn [sel]; rewrite tie_min_face_self; reflexivity.
  - replace (conts tie_bodyA tie_bodyB tie_candi (S k))
      with (conts tie_bodyA tie_bodyB tie_candi 1) by reflexivity.
    cbn [sel]; rewrite tie_conts, tie_min_face_inc; reflexivity.
Qed.

(** C2 (as stated, refuted): in the quarter-overlap scene both bodies have
    minimum sum 1, and the reference body is B ([incBody]), not A. *)
Lemma tie_picks_incident_body :
  let box_self := local_box (body_shape tie_bodyA) in
  let box_inc := local_box (body_shape tie_bodyB) in
  collect_contacts tie_bodyA tie_bodyB = Ok (true, tie_candi)
  /\ min_dep tie_bodyA tie_bodyB box_self box_inc tie_candi 0
     = min_dep tie_bodyA tie_bodyB box_self box_inc tie_candi 1
  /\ _SATFindCollisionProperty tie_bodyA tie_bodyB box_self box_inc tie_candi
     = Ok tie_result
  /\ ans_ref tie_result = tie_bodyB
  /\ ans_ref tie_result <> tie_bodyA.
Proof.
  cbv zeta; rewrite tie_boxA, tie_boxB.
  split; [exact tie_collect |].
  split; [rewrite !tie_min_dep; reflexivity |].
  split; [exact tie_sat |].
  split; [reflexivity | exact tie_bodies_differ].
Qed.

Lemma reference_body_choice_witness :
  _SATFindCollisionProperty tie_bodyA tie_bodyB unit_box unit_box tie_candi
  = Ok tie_result
  /\ (let d0 := min_dep tie_bodyA tie_bodyB unit_box unit_box tie_candi 0 in
      let d1 := min_dep tie_bodyA tie_bodyB unit_box unit_box tie_candi 1 in
      (d0 < d1 -> ans_ref tie_result = tie_bodyA /\ ans_inc tie_result = tie_bodyB)
      /\ (d1 < d0 -> ans_ref tie_result = tie_bodyB /\ ans_inc tie_result = tie_bodyA)
      /\ (d0 = d1 -> ans_ref tie_result = tie_bodyB /\ ans_inc tie_result = tie_bodyA)).
Proof.
  split; [exact tie_sat |].
  exact (reference_body_choice tie_bodyA tie_bodyB unit_box unit_box tie_candi
           tie_result tie_sat).
Defined.

(** ** The local box of a rotated shape *)

(** C4 (the code at the failing input): for the 2 x 2 shape constructed
    with [seta = PI / 2] the box built by the entry point has [left = 1]
    and [right = -1], while the bounding box of its four corners, as the
    update of the world box builds it, is [[-1, 1] x [-1, 1]]. *)
Theorem local_box_of_quarter_turn :
  corners quarter_turn_shape
  = [mkVec 1 (-1); mkVec 1 1; mkVec (-1) 1; mkVec (-1) (-1)]
  /\ local_box quarter_turn_shape = mkBox 1 (-1) (-1) 1
  /\ right (local_box quarter_turn_shape) < left (local_box quarter_turn_shape)
  /\ fold_left AABB_ExpandTo (corners quarter_turn_shape)
               (AABB_Clear (box (shape quarter_turn_shape)))
     = mkBox (-1) 1 (-1) 1.
Proof.
  split; [exact quarter_turn_corners |].
  split; [exact quarter_turn_box |].
  split; [rewrite quarter_turn_box; cbn; lra | exact quarter_turn_hull].
Qed.

(** Without rotation and with non-negative sides the local box is the
    bounding box of the four corners. *)
Lemma local_box_unrotated (w h : R) :
  0 <= w -> 0 <= h ->
  let r := PyRectShape_New w h 0 in
  local_box r = mkBox (- w / 2) (w / 2) (- h / 2) (h / 2)
  /\ Forall (fun c => left (local_box r) <= real c <= right (local_box r)
                      /\ bottom (local_box r) <= imag c <= top (local_box r))
            (corners r).
Proof.
  intros Hw Hh r.
  assert (Hbox : local_box r = mkBox (- w / 2) (w / 2) (- h / 2) (h / 2)).
  { unfold r, local_box, PyRectShape_New, _RectShape_InitInternal, PyVector2_Set;
      cbn [bottomleft topright]; rewrite !Rotate_0; reflexivity. }
  split; [exact Hbox |].
  rewrite Hbox; unfold r, corners, PyRectShape_New, _RectShape_InitInternal,
    PyVector2_Set; cbn [bottomleft bottomright topright topleft].
  rewrite !Rotate_0; cbn [left right bottom top].
  repeat (apply Forall_cons; [cbn [real imag]; lra |]).
  apply Forall_nil.
Qed.

(** ** Orientation of the normal *)


(** In the quarter-overlap scene the same product is [1/2]: the normal of
    both contacts points from the reference body towards the incident
    one. *)
Lemma tie_normal_towards_incident :
  Forall (fun c =>
    PyVector2_Dot
      (c_diff (vecPosition (Contact.inc_body c))
              (vecPosition (Contact.ref_body c)))
      (Contact.normal c) = 1 / 2) tie_contacts.
Proof.
  unfold tie_contacts.
  repeat (apply Forall_cons;
          [ cbn [Contact.inc_body Contact.ref_body Contact.normal];
            change (vecPosition tie_bodyB) with (mkVec (1/2) (1/4));
            change (vecPosition tie_bodyA) with (mkVec 0 0);
            unfold PyVector2_Dot, c_diff; cbn [real imag]; lra |]).
  apply Forall_nil.
Qed.


(** ** Normal, k-factor and filtering on the quarter-overlap scene *)

Lemma normal_is_rotated_face_axis_witness :
  _RectShapeCollision tie_bodyA tie_bodyB [] = Ok (true, tie_contacts)
  /\ exists (candi : _Candidate) (f : CollisionFace) (new : list PyContact),
       collect_contacts tie_bodyA tie_bodyB = Ok (true, candi)
       /\ face_id tie_bodyA tie_bodyB
            (local_box (body_shape tie_bodyA)) (local_box (body_shape tie_bodyB))
            candi
            (choose_k tie_bodyA tie_bodyB
               (local_box (body_shape tie_bodyA))
               (local_box (body_shape tie_bodyB)) candi) = Some f
       /\ tie_contacts = [] ++ new
       /\ Forall (fun c =>
            Contact.normal c
            = PyVector2_Rotate
                match f with
                | CF_LEFT => mkVec (-1) 0
                | CF_RIGHT => mkVec 1 0
                | CF_BOTTOM => mkVec 0 (-1)
                | CF_TOP => mkVec 0 1
                end (fRotation (Contact.ref_body c))
            /\ PyVector2_Dot (Contact.normal c) (Contact.normal c) = 1) new.
Proof.
  split; [exact tie_collide |].
  exact (normal_is_rotated_face_axis tie_bodyA tie_bodyB [] tie_contacts
           tie_collide).
Defined.


Lemma surviving_contacts_off_face_witness :
  _SATFindCollisionProperty tie_bodyA tie_bodyB unit_box unit_box tie_candi
  = Ok tie_result
  /\ (let k := choose_k tie_bodyA tie_bodyB unit_box unit_box tie_candi in
      exists (f : CollisionFace) (kept : list PyVector2),
        face_id tie_bodyA tie_bodyB unit_box unit_box tie_candi k = Some f
        /\ filter_contacts (Some f) (sel k unit_box unit_box)
             (conts tie_bodyA tie_bodyB tie_candi k)
             (Candidate.mk (Candidate.normal tie_candi) []
                (Candidate.kFactors tie_candi)
                (min_dep tie_bodyA tie_bodyB unit_box unit_box tie_candi k))
           = Ok (Candidate.mk (face_normal f) kept (Candidate.kFactors tie_candi)
                   (min_dep tie_bodyA tie_bodyB unit_box unit_box tie_candi k))
        /\ Forall (fun c =>
             In c (conts tie_bodyA tie_bodyB tie_candi k)
             /\ PyMath_IsNearEqual (axis_coord f c)
                  (face_coord f (sel k unit_box unit_box)) = false) kept
        /\ Candidate.contacts (sat_candi tie_result)
           = map (to_world (ans_ref tie_result)) kept).
Proof.
  split; [exact tie_sat |].
  exact (surviving_contacts_off_face tie_bodyA tie_bodyB unit_box unit_box
           tie_candi tie_result tie_sat).
Defined.

(** The k-factor in the form of squares, and its sign. *)
Lemma kFactor_squares (ref inc : PyBodyObject) (n c : PyVector2) :
  compute_kFactor ref inc n c
  = 1 / fMass ref + 1 / fMass inc
    + (PyVector2_Cross (c_diff c (vecPosition ref)) n) ^ 2
      / rInertia (shape (body_shape ref))
    + (PyVector2_Cross (c_diff c (vecPosition inc)) n) ^ 2
      / rInertia (shape (body_shape inc)).
Proof.
  unfold compute_kFactor; cbv zeta; rewrite !Dot_fCross_Cross.
  f_equal; [f_equal |]; unfold Rdiv; f_equal; ring.
Qed.

Lemma kFactor_positive (ref inc : PyBodyObject) (n c : PyVector2) :
  0 < fMass ref -> 0 < fMass inc ->
  0 < rInertia (shape (body_shape ref)) ->
  0 < rInertia (shape (body_shape inc)) ->
  0 < compute_kFactor ref inc n c.
Proof.
  intros Hm1 Hm2 Hi1 Hi2; rewrite kFactor_squares.
  assert (H1 : 0 < 1 / fMass ref) by (apply Rdiv_lt_0_compat; lra).
  assert (H2 : 0 < 1 / fMass inc) by (apply Rdiv_lt_0_compat; lra).
  assert (Hsq : forall x i, 0 < i -> 0 <= x ^ 2 / i).
  { intros x i Hi; unfold Rdiv; apply Rmult_le_pos.
    - apply pow2_ge_0.
    - left; apply Rinv_0_lt_compat; exact Hi. }
  pose proof (Hsq (PyVector2_Cross (c_diff c (vecPosition ref)) n) _ Hi1).
  pose proof (Hsq (PyVector2_Cross (c_diff c (vecPosition inc)) n) _ Hi2).
  lra.
Qed.

(** ** Bounding-box update *)

Lemma UpdateAABB_non_rect_unchanged_witness :
  type (shape (body_shape other_body)) <> ST_RECT
  /\ _RectShapeUpdateAABB other_body = other_body.
Proof.
  split; [discriminate |].
  apply (UpdateAABB_non_rect_unchanged other_body); discriminate.
Defined.

(** On a rectangle shape the update replaces the box by the cleared box
    expanded over the four corners in world space, and nothing else. *)
Lemma UpdateAABB_rect `{Collaborators} (body : PyBodyObject) :
  type (shape (body_shape body)) = ST_RECT ->
  let body1 := set_box body (AABB_Clear (box (shape (body_shape body)))) in
  _RectShapeUpdateAABB body
  = set_box body
      (fold_left AABB_ExpandTo
         (map (PyBodyObject_GetGlobalPos body1) (corners (body_shape body)))
         (AABB_Clear (box (shape (body_shape body))))).
Proof.
  intros Htype body1; unfold _RectShapeUpdateAABB; rewrite Htype; cbn.
  reflexivity.
Qed.

(** * Further properties of the kernel *)

(** Split a goal into its conjuncts, and no further. *)
Ltac conjs := repeat match goal with |- _ /\ _ => split end.

(** ** Accounting of the clipping pass *)

Lemma set_flag_length (flags : list bool) (i : nat) :
  length (set_flag flags i) = length flags.
Proof.
  revert i; induction flags as [| b fl IH]; intros [| j]; cbn; try reflexivity.
  rewrite IH; reflexivity.
Qed.

Lemma set_flag_count (flags : list bool) (i : nat) :
  (count_flags flags <= count_flags (set_flag flags i) <= count_flags flags + 1)%nat
  /\ ((i < length flags)%nat -> (1 <= count_flags (set_flag flags i))%nat).
Proof.
  unfold count_flags; revert i; induction flags as [| b fl IH]; intros [| j]; cbn.
  - split; [lia | intro Hlt; lia].
  - split; [lia | intro Hlt; lia].
  - destruct b; cbn; split; try lia.
  - destruct (IH j) as [Hrange Hpos].
    destruct b; cbn; (split; [lia | intro Hlt; try lia; apply Hpos; lia]).
Qed.

(** One end point either flags a vertex or stores a point. *)
Lemma clip_endpoint_measure `{Collaborators}
    (p vertex : PyVector2) (i : nat) (st st' : clip_state) :
  clip_endpoint p vertex i st = Ok st' ->
  length (has_ip st') = length (has_ip st)
  /\ apart st' = apart st
  /\ Candidate.normal (clip_candi st') = Candidate.normal (clip_candi st)
  /\ Candidate.min_depth (clip_candi st') = Candidate.min_depth (clip_candi st)
  /\ (clip_measure st <= clip_measure st' <= clip_measure st + 1)%nat
  /\ ((i < length (has_ip st))%nat -> (1 <= clip_measure st')%nat).
Proof.
  unfold clip_endpoint, clip_measure, clip_size.
  destruct (PyVector2_Equal p vertex).
  - intro Hok; injection Hok as <-; cbn [has_ip clip_candi apart].
    destruct (set_flag_count (has_ip st) i) as [Hrange Hpos].
    rewrite set_flag_length; conjs; try reflexivity; lia.
  - destruct (push_contact (clip_candi st) p) as [c | flt] eqn:Hpush; cbn;
      [| discriminate].
    intro Hok; injection Hok as <-; cbn [has_ip clip_candi apart].
    apply push_contact_inv in Hpush as (Hcs & Hn & _ & Hd & _).
    unfold contact_size; rewrite Hcs, length_app; cbn.
    conjs; try assumption; try reflexivity; try lia.
Qed.

Lemma clip_edge_measure `{Collaborators}
    (b : AABBBox) (points : list PyVector2) (i : nat) (st st' : clip_state) :
  clip_edge b points st i = Ok st' ->
  length (has_ip st') = length (has_ip st)
  /\ apart st' = apart st && negb (edge_hit b points i)
  /\ Candidate.normal (clip_candi st') = Candidate.normal (clip_candi st)
  /\ Candidate.min_depth (clip_candi st') = Candidate.min_depth (clip_candi st)
  /\ (clip_measure st <= clip_measure st' <= clip_measure st + 2)%nat
  /\ (edge_hit b points i = true -> (i < length (has_ip st))%nat ->
      (1 <= clip_measure st')%nat)
  /\ (edge_hit b points i = false -> st' = st).
Proof.
  unfold clip_edge, edge_hit.
  destruct (Collision_LiangBarskey _ _ _) as [[pf pt] |].
  - match goal with
    | |- bind ?m _ = _ -> _ => destruct m as [st1 | flt] eqn:Hfirst
    end; cbn [bind]; [| discriminate].
    intro Hsecond.
    apply clip_endpoint_measure in Hfirst as (Hl1 & Ha1 & Hn1 & Hd1 & Hm1 & Hp1).
    apply clip_endpoint_measure in Hsecond as (Hl2 & Ha2 & Hn2 & Hd2 & Hm2 & _).
    cbn in Hl1, Ha1, Hn1, Hd1, Hp1.
    assert (Hsame : clip_measure (mkClip false (has_ip st) (clip_candi st))
                    = clip_measure st) by reflexivity.
    rewrite Hsame in Hm1.
    conjs; try congruence; try lia; try discriminate.
    rewrite Ha2, Ha1, andb_false_r; reflexivity.
  - intro Hok; injection Hok as <-.
    rewrite andb_true_r; conjs; try reflexivity; try lia; discriminate.
Qed.

(** The first loop of [_ClipTest] over any list of edges. *)
Lemma clip_loop_measure `{Collaborators} (b : AABBBox) (points : list PyVector2) :
  forall (l : list nat) (st st' : clip_state),
    for_each (clip_edge b points) l st = Ok st' ->
    length (has_ip st') = length (has_ip st)
    /\ apart st' = apart st && negb (existsb (edge_hit b points) l)
    /\ Candidate.normal (clip_candi st') = Candidate.normal (clip_candi st)
    /\ Candidate.min_depth (clip_candi st') = Candidate.min_depth (clip_candi st)
    /\ (clip_measure st <= clip_measure st' <= clip_measure st + 2 * length l)%nat
    /\ (existsb (edge_hit b points) l = true ->
        Forall (fun i => (i < length (has_ip st))%nat) l ->
        (1 <= clip_measure st')%nat)
    /\ (existsb (edge_hit b points) l = false -> st' = st).
Proof.
  induction l as [| i l IH]; intros st st' Hrun; cbn [for_each] in Hrun.
  - injection Hrun as <-; cbn; rewrite andb_true_r.
    conjs; try reflexivity; try lia; discriminate.
  - destruct (clip_edge b points st i) as [st1 | flt] eqn:Hedge; cbn [bind] in Hrun;
      [| discriminate].
    apply clip_edge_measure in Hedge as (Hl1 & Ha1 & Hn1 & Hd1 & Hm1 & Hp1 & Hs1).
    apply IH in Hrun as (Hl2 & Ha2 & Hn2 & Hd2 & Hm2 & Hp2 & Hs2).
    cbn [existsb length].
    conjs; try congruence; try lia.
    + rewrite Ha2, Ha1, negb_orb, andb_assoc; reflexivity.
    + intros Hany Hall.
      apply Forall_cons_iff in Hall as [Hi Hall].
      destruct (edge_hit b points i) eqn:Hhit; cbn in Hany.
      * specialize (Hp1 eq_refl Hi); lia.
      * apply Hp2; [exact Hany |].
        rewrite Hl1; exact Hall.
    + intro Hnone; apply orb_false_iff in Hnone as [Hi Hrest].
      rewrite (Hs2 Hrest); apply Hs1; exact Hi.
Qed.

(** The second loop stores exactly the flagged vertices it visits. *)
Lemma clip_flagged_run (points : list PyVector2) (flags : list bool) :
  forall (l : list nat) (candi candi' : _Candidate),
    for_each (clip_flagged points flags) l candi = Ok candi' ->
    Candidate.contacts candi'
    = Candidate.contacts candi
      ++ map (point_at points) (filter (fun i => nth i flags false) l)
    /\ Candidate.normal candi' = Candidate.normal candi
    /\ Candidate.min_depth candi' = Candidate.min_depth candi.
Proof.
  induction l as [| i l IH]; intros candi candi' Hrun; cbn [for_each] in Hrun.
  - injection Hrun as <-; cbn; rewrite app_nil_r; conjs; reflexivity.
  - unfold clip_flagged at 1 in Hrun; cbn [filter].
    destruct (nth i flags false).
    + destruct (push_contact candi (point_at points i)) as [c | flt] eqn:Hpush;
        cbn [bind] in Hrun; [| discriminate].
      apply push_contact_inv in Hpush as (Hcs & Hn & _ & Hd & _).
      apply IH in Hrun as (Hcs' & Hn' & Hd').
      rewrite Hcs', Hcs, Hn', Hd', <- app_assoc; cbn; conjs;
        first [assumption | reflexivity].
    + cbn [bind] in Hrun; apply IH in Hrun; exact Hrun.
Qed.

Lemma flagged_indices_count (flags : list bool) :
  length flags = 4%nat ->
  length (filter (fun i => nth i flags false) [0; 1; 2; 3]%nat) = count_flags flags.
Proof.
  destruct flags as [| a [| b [| c [| d [| e fl]]]]]; try discriminate.
  intros _; unfold count_flags; destruct a, b, c, d; reflexivity.
Qed.

(** The whole of [_ClipTest] in terms of the four clipper calls. *)
Lemma ClipTest_run `{Collaborators}
    (b : AABBBox) (points : list PyVector2) (candi0 : _Candidate) :
  exists candi : _Candidate,
    _ClipTest b points candi0
    = Ok (existsb (edge_hit b points) [0; 1; 2; 3]%nat, candi)
    /\ (contact_size candi <= 8)%nat
    /\ (if existsb (edge_hit b points) [0; 1; 2; 3]%nat
        then (1 <= contact_size candi)%nat
        else Candidate.contacts candi = [])
    /\ Candidate.normal candi = Candidate.normal candi0
    /\ Candidate.min_depth candi = Candidate.min_depth candi0.
Proof.
  unfold _ClipTest.
  set (st0 := mkClip true [false; false; false; false] (reset_contacts candi0)).
  destruct (for_each_room (clip_edge b points) clip_size 2 MAX_CONTACTS
              (clip_edge_room b points) [0; 1; 2; 3]%nat st0) as (st & Hst & _).
  { unfold clip_size, MAX_CONTACTS; cbn; lia. }
  rewrite Hst; cbn [bind].
  apply clip_loop_measure in Hst as (Hlen & Hapart & Hn & Hd & Hm & Hpos & Hnone).
  cbn in Hlen, Hn, Hd, Hm.
  rewrite Hapart; cbn [apart st0 andb].
  destruct (existsb (edge_hit b points) [0; 1; 2; 3]%nat) eqn:Hany; cbn [negb].
  - destruct (for_each_room (clip_flagged points (has_ip st)) contact_size 1
                MAX_CONTACTS (clip_flagged_room points (has_ip st))
                [0; 1; 2; 3]%nat (clip_candi st)) as (c & Hc & _).
    { unfold clip_measure, clip_size, MAX_CONTACTS in *; cbn; lia. }
    rewrite Hc; cbn [bind].
    apply clip_flagged_run in Hc as (Hcs & Hn' & Hd').
    assert (Hsize : contact_size c = clip_measure st).
    { unfold contact_size, clip_measure, clip_size, contact_size.
      rewrite Hcs, length_app, length_map, flagged_indices_count by exact Hlen.
      reflexivity. }
    exists c; split; [reflexivity |].
    rewrite Hsize; split; [lia |]; split; [| split; congruence].
    apply Hpos; [reflexivity |].
    unfold st0; cbn; repeat (apply Forall_cons; [lia |]); apply Forall_nil.
  - rewrite (Hnone eq_refl); exists (reset_contacts candi0).
    conjs; cbn; first [reflexivity | lia].
Qed.

(** X1: [_ClipTest] always returns; its result is [true] exactly when the
    clipper accepts at least one of the four edges; it then holds between
    1 and 8 points, and none when the result is [false]; the normal and the
    depth of the candidate are not touched. *)
Theorem ClipTest_accounting `{Collaborators}
    (b : AABBBox) (points : list PyVector2) (candi0 : _Candidate) :
  let hit := existsb (edge_hit b points) [0; 1; 2; 3]%nat in
  exists candi : _Candidate,
    _ClipTest b points candi0 = Ok (hit, candi)
    /\ (if hit
        then (1 <= contact_size candi <= 8)%nat
        else Candidate.contacts candi = [])
    /\ Candidate.normal candi = Candidate.normal candi0
    /\ Candidate.min_depth candi = Candidate.min_depth candi0.
Proof.
  intro hit.
  destruct (ClipTest_run b points candi0) as (candi & Hrun & Hle & Hhit & Hn & Hd).
  fold hit in Hrun, Hhit.
  exists candi; split; [exact Hrun |].
  split; [| split; assumption].
  destruct hit; [split; assumption | exact Hhit].
Qed.

(** ** The candidate handed to the face selection *)

Lemma add_corner_run `{Collaborators} (box_inc : AABBBox) :
  forall (l : list (PyVector2 * PyVector2)) (candi candi' : _Candidate),
    for_each (add_corner box_inc) l candi = Ok candi' ->
    Candidate.contacts candi'
    = Candidate.contacts candi
      ++ map snd (filter (fun pc => AABB_IsIn (fst pc) box_inc 0) l)
    /\ Candidate.normal candi' = Candidate.normal candi
    /\ Candidate.min_depth candi' = Candidate.min_depth candi.
Proof.
  induction l as [| pc l IH]; intros candi candi' Hrun; cbn [for_each] in Hrun.
  - injection Hrun as <-; cbn; rewrite app_nil_r; conjs; reflexivity.
  - unfold add_corner at 1 in Hrun; cbn [filter].
    destruct (AABB_IsIn (fst pc) box_inc 0).
    + destruct (push_contact candi (snd pc)) as [c | flt] eqn:Hpush;
        cbn [bind] in Hrun; [| discriminate].
      apply push_contact_inv in Hpush as (Hcs & Hn & _ & Hd & _).
      apply IH in Hrun as (Hcs' & Hn' & Hd').
      rewrite Hcs', Hcs, Hn', Hd', <- app_assoc; cbn; conjs;
        first [assumption | reflexivity].
    + cbn [bind] in Hrun; apply IH in Hrun; exact Hrun.
Qed.

Lemma filter_combine_map {A B : Type} (g : A -> B) (P : B -> bool) (l : list A) :
  map snd (filter (fun pc => P (fst pc)) (combine (map g l) l))
  = filter (fun c => P (g c)) l.
Proof.
  induction l as [| a l IH]; cbn; [reflexivity |].
  destruct (P (g a)); cbn; rewrite IH; reflexivity.
Qed.

(** The first half of the entry point in terms of the clip test and the
    corner tests. *)
Lemma collect_contacts_run `{Collaborators}
    (selfBody incidBody : PyBodyObject) :
  let box_self := local_box (body_shape selfBody) in
  let box_inc := local_box (body_shape incidBody) in
  let p_in_self :=
    map (PyBodyObject_GetRelativePos selfBody incidBody)
        (corners (body_shape incidBody)) in
  let hit := existsb (edge_hit box_self p_in_self) [0; 1; 2; 3]%nat in
  exists clipped candi : _Candidate,
    _ClipTest box_self p_in_self candi_init = Ok (hit, clipped)
    /\ collect_contacts selfBody incidBody = Ok (hit, candi)
    /\ Candidate.contacts candi
       = Candidate.contacts clipped
         ++ (if hit
             then filter
                    (fun c =>
                       AABB_IsIn
                         (PyBodyObject_GetRelativePos incidBody selfBody c)
                         box_inc 0)
                    (corners (body_shape selfBody))
             else [])
    /\ (contact_size candi <= 12)%nat
    /\ (if hit then (1 <= contact_size candi)%nat
        else Candidate.contacts candi = []).
Proof.
  intros box_self box_inc p_in_self hit.
  destruct (ClipTest_run box_self p_in_self candi_init)
    as (clipped & Hclip & Hle & Hhit & _).
  fold hit in Hclip, Hhit.
  exists clipped; unfold collect_contacts.
  fold box_self box_inc p_in_self; rewrite Hclip; cbn [bind fst snd].
  destruct hit; cbn [negb].
  - set (pcs := combine _ _).
    destruct (for_each_room (add_corner box_inc) contact_size 1 MAX_CONTACTS
                (add_corner_room box_inc) pcs clipped) as (c & Hc & _).
    { unfold pcs, MAX_CONTACTS; cbn; lia. }
    rewrite Hc; cbn [bind].
    apply add_corner_run in Hc as (Hcs & _).
    unfold pcs in Hcs.
    pose proof (filter_combine_map
                  (PyBodyObject_GetRelativePos incidBody selfBody)
                  (fun p => AABB_IsIn p box_inc 0)
                  (corners (body_shape selfBody))) as Hextra.
    cbv beta in Hextra; rewrite Hextra in Hcs; clear Hextra.
    exists c; conjs; try reflexivity; try exact Hcs.
    + unfold contact_size in *; rewrite Hcs, length_app.
      pose proof (filter_length_le
                    (fun c0 => AABB_IsIn
                       (PyBodyObject_GetRelativePos incidBody selfBody c0)
                       box_inc 0)
                    (corners (body_shape selfBody))) as Hfl.
      cbn [corners length] in Hfl; lia.
    + unfold contact_size in *; rewrite Hcs, length_app; lia.
  - exists clipped; conjs; try reflexivity.
    + rewrite app_nil_r; reflexivity.
    + lia.
    + exact Hhit.
Qed.

(** X2: the first half of the entry point always returns.  Its flag is the
    result of the clip test; on [true] the candidate holds the points of the
    clip test followed by exactly those corners of [selfBody], in the order
    bottomleft, bottomright, topright, topleft, whose image in
    [incidBody]'s frame passes [AABB_IsIn] with tolerance 0: between 1 and
    12 points in all; on [false] it holds none. *)
Theorem collect_contacts_accounting `{Collaborators}
    (selfBody incidBody : PyBodyObject) :
  let box_self := local_box (body_shape selfBody) in
  let box_inc := local_box (body_shape incidBody) in
  let p_in_self :=
    map (PyBodyObject_GetRelativePos selfBody incidBody)
        (corners (body_shape incidBody)) in
  exists (hit : bool) (clipped candi : _Candidate),
    _ClipTest box_self p_in_self candi_init = Ok (hit, clipped)
    /\ collect_contacts selfBody incidBody = Ok (hit, candi)
    /\ (if hit
        then Candidate.contacts candi
             = Candidate.contacts clipped
               ++ filter
                    (fun c =>
                       AABB_IsIn
                         (PyBodyObject_GetRelativePos incidBody selfBody c)
                         box_inc 0)
                    (corners (body_shape selfBody))
             /\ (1 <= contact_size candi <= 12)%nat
        else Candidate.contacts candi = []).
Proof.
  intros box_self box_inc p_in_self.
  destruct (collect_contacts_run selfBody incidBody)
    as (clipped & candi & Hclip & Hcollect & Hcs & Hle & Hhit).
  fold box_self box_inc p_in_self in Hclip, Hcs, Hhit.
  exists (existsb (edge_hit box_self p_in_self) [0; 1; 2; 3]%nat), clipped, candi.
  split; [exact Hclip |]; split; [exact Hcollect |].
  destruct (existsb (edge_hit box_self p_in_self) [0; 1; 2; 3]%nat).
  - split; [exact Hcs | split; assumption].
  - exact Hhit.
Qed.

(** X3: the outcome of the entry point.  It returns [true] exactly when the
    clipper accepts one of the four edges of [incidBody] taken in
    [selfBody]'s frame against [selfBody]'s local box; on [false] the list
    is returned as it was; on [true] at most 12 records are appended; and
    the only fault is a face left unassigned after an accepted edge. *)
Theorem collide_outcome `{Collaborators}
    (selfBody incidBody : PyBodyObject) (l : list PyContact) :
  let hit :=
    existsb
      (edge_hit (local_box (body_shape selfBody))
         (map (PyBodyObject_GetRelativePos selfBody incidBody)
              (corners (body_shape incidBody))))
      [0; 1; 2; 3]%nat in
  match _RectShapeCollision selfBody incidBody l with
  | Ok (b, l') =>
      b = hit
      /\ (if b
          then exists new, l' = l ++ new /\ (length new <= 12)%nat
          else l' = l)
  | Fault flt => flt = FaceUnassigned /\ hit = true
  end.
Proof.
  intro hit.
  destruct (collect_contacts_run selfBody incidBody)
    as (clipped & candi & _ & Hcollect & _ & Hle & _).
  fold hit in Hcollect.
  unfold _RectShapeCollision; rewrite Hcollect; cbn [bind fst snd].
  destruct hit; cbn [negb].
  - assert (Hroom : (contact_size candi <= MAX_CONTACTS)%nat)
      by (unfold MAX_CONTACTS; lia).
    pose proof (SAT_no_overflow selfBody incidBody
                  (local_box (body_shape selfBody))
                  (local_box (body_shape incidBody)) candi Hroom) as Hno.
    destruct (_SATFindCollisionProperty _ _ _ _ candi) as [r | flt] eqn:Hsat;
      cbn [bind].
    + split; [reflexivity |].
      eexists; split; [reflexivity |].
      apply SAT_sizes in Hsat as [Hsz _].
      rewrite length_map, length_seq; lia.
    + destruct flt; [contradiction Hno; reflexivity |].
      split; reflexivity.
  - split; reflexivity.
Qed.

(** ** The minimum search over the faces *)

Lemma min_search_run (d : CollisionFace -> R) :
  forall (l : list CollisionFace) (m0 m : R) (o0 o : option CollisionFace),
    fold_left (min_step d) l (m0, o0) = (m, o) ->
    (o = o0 /\ m = m0 /\ forall g, In g l -> m0 <= d g)
    \/ (exists pre f post,
          l = pre ++ f :: post
          /\ o = Some f /\ m = d f /\ d f < m0
          /\ (forall g, In g pre -> d f < d g)
          /\ (forall g, In g post -> d f <= d g)).
Proof.
  induction l as [| i l IH]; intros m0 m o0 o Hrun; cbn [fold_left] in Hrun.
  - injection Hrun as <- <-; left; conjs; try reflexivity.
    intros g [].
  - unfold min_step at 2 in Hrun; cbn [fst] in Hrun.
    destruct (Rltb (d i) m0) eqn:Hlt.
    + apply Rltb_true in Hlt.
      apply IH in Hrun as [(-> & -> & Hrest) | (pre & f & post & -> & -> & -> & Hf & Hpre & Hpost)];
        right.
      * exists [], i, l; conjs; try reflexivity; try assumption.
        intros g [].
      * exists (i :: pre), f, post; conjs; try reflexivity; try assumption; try lra.
        intros g [<- | Hg]; [exact Hf | apply Hpre; exact Hg].
    + apply Rltb_false in Hlt.
      apply IH in Hrun as [(-> & -> & Hrest) | (pre & f & post & -> & -> & -> & Hf & Hpre & Hpost)].
      * left; conjs; try reflexivity.
        intros g [<- | Hg]; [lra | apply Hrest; exact Hg].
      * right; exists (i :: pre), f, post; conjs; try reflexivity; try assumption.
        intros g [<- | Hg]; [lra | apply Hpre; exact Hg].
Qed.

(** The two outcomes of the search from [DBL_MAX]. *)
Lemma min_face_run `{Collaborators} (d : CollisionFace -> R) :
  match snd (min_face d) with
  | Some f =>
      fst (min_face d) = d f /\ d f < DBL_MAX
      /\ exists pre post,
           CollisionFace_range = pre ++ f :: post
           /\ (forall g, In g pre -> d f < d g)
           /\ (forall g, In g post -> d f <= d g)
  | None =>
      fst (min_face d) = DBL_MAX
      /\ forall g, In g CollisionFace_range -> DBL_MAX <= d g
  end.
Proof.
  unfold min_face.
  destruct (fold_left (min_step d) CollisionFace_range (DBL_MAX, None))
    as [m o] eqn:Hrun.
  apply min_search_run in Hrun
    as [(-> & -> & Hrest) | (pre & f & post & Hl & -> & -> & Hf & Hpre & Hpost)];
    cbn [fst snd].
  - split; [reflexivity | exact Hrest].
  - conjs; try reflexivity; try assumption.
    exists pre, post; conjs; assumption.
Qed.

Lemma min_face_least `{Collaborators} (d : CollisionFace -> R) (g : CollisionFace) :
  In g CollisionFace_range -> fst (min_face d) <= d g.
Proof.
  intro Hg; pose proof (min_face_run d) as Hspec.
  destruct (snd (min_face d)) as [f |].
  - destruct Hspec as (-> & _ & pre & post & Hl & Hpre & Hpost).
    rewrite Hl in Hg; apply in_app_or in Hg as [Hg | [<- | Hg]].
    + left; apply Hpre; exact Hg.
    + right; reflexivity.
    + apply Hpost; exact Hg.
  - destruct Hspec as (-> & Hall); apply Hall; exact Hg.
Qed.

(** X4: the search for the minimum sum.  The minimum found is at most every
    face's sum and at most [DBL_MAX].  When a face is assigned, it is the
    first one, in enumerator order, whose sum is the least: strictly below
    the sums of the faces before it, at most the sums of the faces after it,
    and below [DBL_MAX]; the minimum is its sum.  The face stays unassigned,
    with the minimum at [DBL_MAX], only when no sum is below [DBL_MAX]. *)
Theorem min_face_spec `{Collaborators} (d : CollisionFace -> R) :
  (forall g, In g CollisionFace_range -> fst (min_face d) <= d g)
  /\ fst (min_face d) <= DBL_MAX
  /\ match snd (min_face d) with
     | Some f =>
         fst (min_face d) = d f /\ d f < DBL_MAX
         /\ exists pre post,
              CollisionFace_range = pre ++ f :: post
              /\ (forall g, In g pre -> d f < d g)
              /\ (forall g, In g post -> d f <= d g)
     | None =>
         fst (min_face d) = DBL_MAX
         /\ forall g, In g CollisionFace_range -> DBL_MAX <= d g
     end.
Proof.
  split; [intros g Hg; apply min_face_least; exact Hg |].
  pose proof (min_face_run d) as Hrun.
  split; [| exact Hrun].
  destruct (snd (min_face d)) as [f |].
  - destruct Hrun as (-> & Hlt & _); lra.
  - destruct Hrun as (-> & _); lra.
Qed.

Lemma face_distance_nonneg (b : AABBBox) (f : CollisionFace) (c : PyVector2) :
  0 <= face_distance b f c.
Proof. destruct f; cbn; apply Rabs_pos. Qed.

Lemma deps_from (b : AABBBox) (f : CollisionFace) :
  forall (cs : list PyVector2) (acc : R),
    fold_left (fun a c => a + face_distance b f c) cs acc
    = acc + deps b cs f.
Proof.
  unfold deps; induction cs as [| c cs IH]; intro acc; cbn [fold_left].
  - ring.
  - rewrite IH, (IH (0 + _)); ring.
Qed.

(** The sum of a face over a list with a first contact. *)
Lemma deps_cons (b : AABBBox) (f : CollisionFace) (c : PyVector2)
    (cs : list PyVector2) :
  deps b (c :: cs) f = face_distance b f c + deps b cs f.
Proof. unfold deps at 1; cbn [fold_left]; rewrite deps_from; ring. Qed.

Lemma deps_nonneg (b : AABBBox) (cs : list PyVector2) (f : CollisionFace) :
  0 <= deps b cs f.
Proof.
  induction cs as [| c cs IH]; [unfold deps; cbn; lra |].
  rewrite deps_cons; pose proof (face_distance_nonneg b f c); lra.
Qed.

Lemma DBL_MAX_pos : 0 < DBL_MAX.
Proof. unfold DBL_MAX; lra. Qed.

Lemma min_dep_nonneg `{Collaborators}
    (selfBody incBody : PyBodyObject) (selfBox incBox : AABBBox)
    (candi : _Candidate) (k : nat) :
  0 <= min_dep selfBody incBody selfBox incBox candi k <= DBL_MAX.
Proof.
  unfold min_dep.
  set (d := deps _ _).
  pose proof (min_face_run d) as Hspec.
  destruct (snd (min_face d)) as [f |].
  - destruct Hspec as (-> & Hlt & _).
    split; [apply deps_nonneg | lra].
  - destruct Hspec as (-> & _); pose proof DBL_MAX_pos; lra.
Qed.

(** X5: the depth recorded by the face selection is the smaller of the two
    bodies' minimum sums; it is the sum of the chosen face over the contacts
    in the reference body's frame, it is not negative and it is below
    [DBL_MAX]. *)
Theorem min_depth_spec `{Collaborators}
    (selfBody incBody : PyBodyObject) (selfBox incBox : AABBBox)
    (candi : _Candidate) (r : sat_result) :
  _SATFindCollisionProperty selfBody incBody selfBox incBox candi = Ok r ->
  let depth := Candidate.min_depth (sat_candi r) in
  let k := choose_k selfBody incBody selfBox incBox candi in
  depth = Rmin (min_dep selfBody incBody selfBox incBox candi 0)
               (min_dep selfBody incBody selfBox incBox candi 1)
  /\ (exists f,
        face_id selfBody incBody selfBox incBox candi k = Some f
        /\ depth = deps (sel k selfBox incBox) (conts selfBody incBody candi k) f)
  /\ 0 <= depth < DBL_MAX.
Proof.
  intros Hrun depth k.
  apply SAT_inv in Hrun as (f & Hf & _ & _ & Hcandi); fold k in Hf, Hcandi.
  assert (Hdepth : depth = min_dep selfBody incBody selfBox incBox candi k)
    by (unfold depth; rewrite Hcandi; reflexivity).
  assert (Hmin : min_dep selfBody incBody selfBox incBox candi k
                 = Rmin (min_dep selfBody incBody selfBox incBox candi 0)
                        (min_dep selfBody incBody selfBox incBox candi 1)).
  { unfold k, choose_k.
    destruct (Rltb _ _) eqn:Hlt.
    - apply Rltb_true in Hlt; rewrite Rmin_left by lra; reflexivity.
    - apply Rltb_false in Hlt; rewrite Rmin_right by lra; reflexivity. }
  assert (Hsum : min_dep selfBody incBody selfBox incBox candi k
                 = deps (sel k selfBox incBox) (conts selfBody incBody candi k) f
                 /\ min_dep selfBody incBody selfBox incBox candi k < DBL_MAX).
  { unfold min_dep, face_id in *.
    pose proof (min_face_run
                  (deps (sel k selfBox incBox) (conts selfBody incBody candi k)))
      as Hspec.
    rewrite Hf in Hspec; destruct Hspec as (Hm & Hlt & _).
    rewrite Hm; split; [reflexivity | exact Hlt]. }
  destruct Hsum as [Hsum Hlt].
  conjs.
  - rewrite Hdepth; exact Hmin.
  - exists f; split; [exact Hf | rewrite Hdepth; exact Hsum].
  - rewrite Hdepth, Hsum; apply deps_nonneg.
  - rewrite Hdepth; exact Hlt.
Qed.

(** X6: the face selection returns a result exactly when the candidate fits
    the 16 slots and, for the body it picks as reference, some face of the
    enumerator range has a sum below [DBL_MAX]; otherwise the face is read
    unassigned. *)
Theorem SAT_returns_iff `{Collaborators}
    (selfBody incBody : PyBodyObject) (selfBox incBox : AABBBox)
    (candi : _Candidate) :
  let k := choose_k selfBody incBody selfBox incBox candi in
  (exists r, _SATFindCollisionProperty selfBody incBody selfBox incBox candi = Ok r)
  <-> (contact_size candi <= MAX_CONTACTS)%nat
      /\ exists f, In f CollisionFace_range
                   /\ deps (sel k selfBox incBox)
                           (conts selfBody incBody candi k) f < DBL_MAX.
Proof.
  intro k; split.
  - intros (r & Hrun).
    assert (Hsize : (contact_size candi <= MAX_CONTACTS)%nat).
    { unfold _SATFindCollisionProperty in Hrun.
      destruct (MAX_CONTACTS <? contact_size candi)%nat eqn:Hover;
        [discriminate |].
      apply Nat.ltb_ge in Hover; exact Hover. }
    split; [exact Hsize |].
    apply SAT_inv in Hrun as (f & Hf & _); fold k in Hf.
    unfold face_id in Hf.
    pose proof (min_face_run
                  (deps (sel k selfBox incBox) (conts selfBody incBody candi k)))
      as Hspec.
    rewrite Hf in Hspec; destruct Hspec as (_ & Hlt & pre & post & Hl & _).
    exists f; split; [rewrite Hl; apply in_elt | exact Hlt].
  - intros (Hsize & f & Hin & Hlt).
    unfold _SATFindCollisionProperty; fold k.
    apply Nat.ltb_ge in Hsize; rewrite Hsize.
    cbv zeta; fold k.
    unfold face_id at 1.
    pose proof (min_face_run
                  (deps (sel k selfBox incBox) (conts selfBody incBody candi k)))
      as Hspec.
    destruct (snd (min_face _)) as [f' |].
    + unfold filter_contacts.
      destruct f';
        match goal with
        | |- exists r, bind (for_each (keep_off_face ?coord ?face) ?cs ?c0) _ = _ =>
            destruct (for_each_room (keep_off_face coord face) contact_size 1
                        MAX_CONTACTS (keep_off_face_room coord face) cs c0)
              as (c1 & Hc1 & _);
            [ unfold contact_size, with_normal; cbn [Candidate.contacts length];
              rewrite conts_length; apply Nat.ltb_ge in Hsize; lia
            | rewrite Hc1; cbn [bind]; eexists; reflexivity ]
        end.
    + destruct Hspec as (_ & Hall); specialize (Hall f Hin); lra.
Qed.

(** ** The manifold appended by the entry point *)

(** What every record of one call shares. *)
Lemma emitted_shared (r : sat_result) (c : PyContact) :
  In c (map (make_contact r) (seq 0 (contact_size (sat_candi r)))) ->
  Contact.ref_body c = ans_ref r
  /\ Contact.inc_body c = ans_inc r
  /\ Contact.normal c = Candidate.normal (sat_candi r)
  /\ Contact.depth c = Candidate.min_depth (sat_candi r)
  /\ Contact.weight c = contact_size (sat_candi r).
Proof.
  intro Hin; apply in_map_iff in Hin as (i & <- & _).
  unfold make_contact; cbn; conjs; reflexivity.
Qed.

(** X7: the records appended by one call form one manifold: they carry the
    same reference and incident body, which are the two arguments in one
    order or the other, the same normal and the same depth, which is not
    negative, and each has for weight the number of records appended. *)
Theorem emitted_manifold `{Collaborators}
    (selfBody incidBody : PyBodyObject) (l l' : list PyContact) :
  _RectShapeCollision selfBody incidBody l = Ok (true, l') ->
  exists (new : list PyContact) (ref inc : PyBodyObject) (n : PyVector2) (d : R),
    l' = l ++ new
    /\ ((ref = selfBody /\ inc = incidBody) \/ (ref = incidBody /\ inc = selfBody))
    /\ 0 <= d
    /\ Forall (fun c =>
         Contact.ref_body c = ref /\ Contact.inc_body c = inc
         /\ Contact.normal c = n /\ Contact.depth c = d
         /\ Contact.weight c = length new) new.
Proof.
  intro Hrun.
  apply collide_inv in Hrun as (candi & _ & r & Hsat & ->).
  pose proof (SAT_inv _ _ _ _ _ _ Hsat) as (f & _ & Href & Hinc & Hcandi).
  exists (map (make_contact r) (seq 0 (contact_size (sat_candi r)))),
    (ans_ref r), (ans_inc r), (Candidate.normal (sat_candi r)),
    (Candidate.min_depth (sat_candi r)).
  conjs.
  - reflexivity.
  - rewrite Href, Hinc.
    destruct (choose_k _ _ _ _ _); cbn [sel]; [left | right]; split; reflexivity.
  - rewrite Hcandi; cbn [finish_candidate Candidate.min_depth].
    apply min_dep_nonneg.
  - apply Forall_forall; intros c Hc.
    apply emitted_shared in Hc as (H1 & H2 & H3 & H4 & H5).
    rewrite length_map, length_seq; conjs; assumption.
Qed.

(** X8: when both bodies have positive mass and positive shape inertia,
    every record appended carries a positive k-factor. *)
Theorem emitted_kFactor_positive `{Collaborators}
    (selfBody incidBody : PyBodyObject) (l l' : list PyContact) :
  0 < fMass selfBody -> 0 < fMass incidBody ->
  0 < rInertia (shape (body_shape selfBody)) ->
  0 < rInertia (shape (body_shape incidBody)) ->
  _RectShapeCollision selfBody incidBody l = Ok (true, l') ->
  exists new : list PyContact,
    l' = l ++ new /\ Forall (fun c => 0 < Contact.kFactor c) new.
Proof.
  intros Hm1 Hm2 Hi1 Hi2 Hrun.
  apply collide_reported in Hrun as (candi & f & new & _ & _ & Hl & Hall).
  exists new; split; [exact Hl |].
  eapply Forall_impl; [| exact Hall].
  intros c (p & _ & _ & _ & _ & _ & _ & ->).
  destruct (choose_k _ _ _ _ _); cbn [sel]; apply kFactor_positive; assumption.
Qed.

(** X9: when [PyBodyObject_GetRelativePos] is the change of frame between
    the two bodies, that is, a point of [selfBody]'s frame carried to
    [incidBody]'s frame has the same world position, the position of every
    record appended is the world position of one of the candidate contacts
    collected in [selfBody]'s frame, whichever body became the reference;
    and that candidate is off the chosen face. *)
Theorem emitted_positions `{Collaborators}
    (selfBody incidBody : PyBodyObject) (l l' : list PyContact) :
  (forall c, to_world incidBody (PyBodyObject_GetRelativePos incidBody selfBody c)
             = to_world selfBody c) ->
  _RectShapeCollision selfBody incidBody l = Ok (true, l') ->
  exists (candi : _Candidate) (new : list PyContact),
    collect_contacts selfBody incidBody = Ok (true, candi)
    /\ l' = l ++ new
    /\ Forall (fun c =>
         exists p, In p (Candidate.contacts candi)
                   /\ Contact.pos c = to_world selfBody p) new.
Proof.
  intros Hframe Hrun.
  apply collide_reported in Hrun as (candi & f & new & Hcollect & _ & Hl & Hall).
  exists candi, new; split; [exact Hcollect |]; split; [exact Hl |].
  eapply Forall_impl; [| exact Hall].
  intros c (p & Hp & _ & _ & _ & _ & Hpos & _).
  rewrite Hpos; clear Hpos.
  unfold conts in Hp.
  destruct (choose_k _ _ _ _ _); cbn [sel] in *.
  - exists p; split; [exact Hp | reflexivity].
  - apply in_map_iff in Hp as (q & <- & Hq).
    exists q; split; [exact Hq | apply Hframe].
Qed.

(** ** Moving both bodies by one world vector *)

Lemma to_world_translate (v : PyVector2) (body : PyBodyObject) (c : PyVector2) :
  to_world (translate_body v body) c = c_sum (to_world body c) v.
Proof.
  unfold to_world, translate_body, c_sum; cbn [fRotation vecPosition real imag].
  f_equal; ring.
Qed.

Lemma kFactor_translate (v : PyVector2) (ref inc : PyBodyObject) (n c : PyVector2) :
  compute_kFactor (translate_body v ref) (translate_body v inc) n (c_sum c v)
  = compute_kFactor ref inc n c.
Proof.
  unfold compute_kFactor, translate_body; cbv zeta;
    cbn [fMass vecPosition body_shape].
  assert (Hdiff : forall p, c_diff (c_sum c v) (c_sum p v) = c_diff c p).
  { intro p; unfold c_diff, c_sum; cbn [real imag]; f_equal; ring. }
  rewrite !Hdiff; reflexivity.
Qed.

Lemma finish_candidate_translate (v : PyVector2) (ref inc : PyBodyObject)
    (cand : _Candidate) :
  let done := finish_candidate ref inc cand in
  finish_candidate (translate_body v ref) (translate_body v inc) cand
  = Candidate.mk (Candidate.normal done)
      (map (fun c => c_sum c v) (Candidate.contacts done))
      (Candidate.kFactors done) (Candidate.min_depth done).
Proof.
  unfold finish_candidate; cbn [Candidate.normal Candidate.contacts
    Candidate.kFactors Candidate.min_depth translate_body fRotation].
  f_equal.
  - rewrite map_map; apply map_ext; intro c; apply to_world_translate.
  - rewrite !map_map; apply map_ext; intro c.
    rewrite to_world_translate; apply kFactor_translate.
Qed.

Section Translation.
Context `{Collaborators}.
Variable v : PyVector2.

(** The change of frame between two bodies does not see a move of both
    by [v]. *)
Hypothesis relative_translate :
  forall (target source : PyBodyObject) (p : PyVector2),
    PyBodyObject_GetRelativePos (translate_body v target)
                                (translate_body v source) p
    = PyBodyObject_GetRelativePos target source p.

Lemma collect_contacts_translate (selfBody incidBody : PyBodyObject) :
  collect_contacts (translate_body v selfBody) (translate_body v incidBody)
  = collect_contacts selfBody incidBody.
Proof.
  unfold collect_contacts; cbn [translate_body body_shape].
  rewrite (map_ext _ _ (relative_translate selfBody incidBody)).
  rewrite (map_ext _ _ (relative_translate incidBody selfBody)).
  reflexivity.
Qed.

Lemma conts_translate (selfBody incBody : PyBodyObject) (candi : _Candidate)
    (k : nat) :
  conts (translate_body v selfBody) (translate_body v incBody) candi k
  = conts selfBody incBody candi k.
Proof.
  unfold conts.
  rewrite (map_ext _ _ (relative_translate incBody selfBody)); reflexivity.
Qed.

Lemma choose_k_translate (selfBody incBody : PyBodyObject)
    (selfBox incBox : AABBBox) (candi : _Candidate) :
  choose_k (translate_body v selfBody) (translate_body v incBody)
           selfBox incBox candi
  = choose_k selfBody incBody selfBox incBox candi.
Proof. unfold choose_k, min_dep; rewrite !conts_translate; reflexivity. Qed.

Lemma SAT_translate (selfBody incBody : PyBodyObject)
    (selfBox incBox : AABBBox) (candi : _Candidate) :
  _SATFindCollisionProperty (translate_body v selfBody)
    (translate_body v incBody) selfBox incBox candi
  = match _SATFindCollisionProperty selfBody incBody selfBox incBox candi with
    | Ok r =>
        Ok (mkSat
              (Candidate.mk (Candidate.normal (sat_candi r))
                 (map (fun c => c_sum c v) (Candidate.contacts (sat_candi r)))
                 (Candidate.kFactors (sat_candi r))
                 (Candidate.min_depth (sat_candi r)))
              (translate_body v (ans_ref r)) (translate_body v (ans_inc r)))
    | Fault flt => Fault flt
    end.
Proof.
  unfold _SATFindCollisionProperty.
  destruct (MAX_CONTACTS <? contact_size candi)%nat; [reflexivity |].
  cbv zeta; rewrite choose_k_translate.
  set (k := choose_k selfBody incBody selfBox incBox candi).
  unfold min_dep, face_id; rewrite !conts_translate.
  destruct (filter_contacts _ _ _ _) as [candi2 | flt]; cbn [bind];
    [| reflexivity].
  cbn [sat_candi ans_ref ans_inc].
  f_equal.
  replace (sel k (translate_body v selfBody) (translate_body v incBody))
    with (translate_body v (sel k selfBody incBody)) by (destruct k; reflexivity).
  replace (sel k (translate_body v incBody) (translate_body v selfBody))
    with (translate_body v (sel k incBody selfBody)) by (destruct k; reflexivity).
  rewrite finish_candidate_translate; reflexivity.
Qed.

Lemma make_contact_translate (r : sat_result) (i : nat) :
  (i < contact_size (sat_candi r))%nat ->
  make_contact
    (mkSat
       (Candidate.mk (Candidate.normal (sat_candi r))
          (map (fun c => c_sum c v) (Candidate.contacts (sat_candi r)))
          (Candidate.kFactors (sat_candi r))
          (Candidate.min_depth (sat_candi r)))
       (translate_body v (ans_ref r)) (translate_body v (ans_inc r))) i
  = translate_contact v (make_contact r i).
Proof.
  intro Hi; unfold make_contact, translate_contact, contact_size in *;
    cbn [sat_candi ans_ref ans_inc Candidate.normal Candidate.contacts
         Candidate.kFactors Candidate.min_depth Contact.ref_body
         Contact.inc_body Contact.pos Contact.normal Contact.weight
         Contact.depth Contact.kFactor].
  rewrite length_map.
  f_equal.
  rewrite (nth_indep _ vec0 (c_sum vec0 v)) by (rewrite length_map; exact Hi).
  apply (map_nth (fun c => c_sum c v)).
Qed.

(** X10: translation invariance.  When the change of frame between the two
    bodies is unchanged by moving both by the world vector [v], the call
    on the moved bodies returns the same boolean (or the same fault) and
    appends the same records moved by [v]: same normal, depth, weight and
    k-factor, positions shifted by [v]. *)
Theorem collide_translation (selfBody incidBody : PyBodyObject)
    (l : list PyContact) :
  _RectShapeCollision (translate_body v selfBody) (translate_body v incidBody)
                      (map (translate_contact v) l)
  = match _RectShapeCollision selfBody incidBody l with
    | Ok (b, l') => Ok (b, map (translate_contact v) l')
    | Fault flt => Fault flt
    end.
Proof.
  unfold _RectShapeCollision.
  rewrite collect_contacts_translate.
  destruct (collect_contacts selfBody incidBody) as [[hit candi] | flt];
    cbn [bind fst snd]; [| reflexivity].
  destruct hit; cbn [negb]; [| reflexivity].
  cbn [translate_body body_shape]; rewrite SAT_translate.
  destruct (_SATFindCollisionProperty _ _ _ _ candi) as [r | flt];
    cbn [bind]; [| reflexivity].
  f_equal; f_equal.
  rewrite map_app, map_map; f_equal.
  unfold contact_size at 1; cbn [sat_candi Candidate.contacts].
  rewrite length_map; fold (contact_size (sat_candi r)).
  apply map_ext_in; intros i Hi.
  apply in_seq in Hi as [_ Hi]; cbn in Hi.
  apply make_contact_translate; exact Hi.
Qed.
End Translation.

(** ** Shape construction *)

(** X13: whatever the angle, the four corners stored by
    [_RectShape_InitInternal] are those of a rectangle of sides [width] and
    [height] centred at the origin: opposite corners are opposite vectors,
    the bottom side has squared length [width^2], the left side
    [height^2], the two are orthogonal, and the top side equals the bottom
    side.  The base part of the shape is not touched. *)
Theorem InitInternal_rigid (sh : PyRectShapeObject) (width height seta : R) :
  let r := _RectShape_InitInternal sh width height seta in
  let bottom_side := c_diff (bottomright r) (bottomleft r) in
  let left_side := c_diff (topleft r) (bottomleft r) in
  shape r = shape sh
  /\ c_sum (bottomleft r) (topright r) = vec0
  /\ c_sum (bottomright r) (topleft r) = vec0
  /\ PyVector2_Dot bottom_side bottom_side = width ^ 2
  /\ PyVector2_Dot left_side left_side = height ^ 2
  /\ PyVector2_Dot bottom_side left_side = 0
  /\ c_diff (topright r) (topleft r) = bottom_side.
Proof.
  cbv zeta.
  unfold _RectShape_InitInternal, PyVector2_Set, PyVector2_Rotate, PyVector2_Dot,
    c_sum, c_diff, vec0;
    cbn [shape bottomleft bottomright topright topleft real imag].
  pose proof (sin_cos_square seta) as Hsc.
  conjs.
  - reflexivity.
  - f_equal; lra.
  - f_equal; lra.
  - replace (width ^ 2)
      with (width ^ 2 * (sin seta * sin seta + cos seta * cos seta))
      by (rewrite Hsc; ring).
    field.
  - replace (height ^ 2)
      with (height ^ 2 * (sin seta * sin seta + cos seta * cos seta))
      by (rewrite Hsc; ring).
    field.
  - field.
  - f_equal; lra.
Qed.

(** ** Bounding-box update *)

Lemma UpdateAABB_fields `{Collaborators} (body : PyBodyObject) :
  let body' := _RectShapeUpdateAABB body in
  fMass body' = fMass body
  /\ vecPosition body' = vecPosition body
  /\ fRotation body' = fRotation body
  /\ corners (body_shape body') = corners (body_shape body)
  /\ type (shape (body_shape body')) = type (shape (body_shape body))
  /\ rInertia (shape (body_shape body')) = rInertia (shape (body_shape body)).
Proof.
  cbv zeta; unfold _RectShapeUpdateAABB.
  destruct (ShapeType_eqb _ _); cbn; conjs; reflexivity.
Qed.

Lemma ShapeType_eqb_RECT (t : ShapeType) :
  ShapeType_eqb t ST_RECT = true <-> t = ST_RECT.
Proof. destruct t; cbn; split; intro Hx; try reflexivity; discriminate. Qed.

(** The update of a rectangle body when world positions do not depend on
    the shape's box. *)
Lemma UpdateAABB_rect_box `{Collaborators} (body : PyBodyObject) :
  (forall (bd : PyBodyObject) (b : AABBBox) (p : PyVector2),
     PyBodyObject_GetGlobalPos (set_box bd b) p = PyBodyObject_GetGlobalPos bd p) ->
  type (shape (body_shape body)) = ST_RECT ->
  _RectShapeUpdateAABB body
  = set_box body
      (fold_left AABB_ExpandTo
         (map (PyBodyObject_GetGlobalPos body) (corners (body_shape body)))
         (AABB_Clear (box (shape (body_shape body))))).
Proof.
  intros Hpos Htype; unfold _RectShapeUpdateAABB; rewrite Htype.
  cbn [ShapeType_eqb].
  change (body_shape (set_box body (AABB_Clear (box (shape (body_shape body))))))
    with (mkRect (mkShape (AABB_Clear (box (shape (body_shape body))))
                    (type (shape (body_shape body)))
                    (rInertia (shape (body_shape body))))
            (bottomleft (body_shape body)) (bottomright (body_shape body))
            (topright (body_shape body)) (topleft (body_shape body))).
  cbn [shape box corners bottomleft bottomright topright topleft].
  rewrite (map_ext _ _ (Hpos body (AABB_Clear (box (shape (body_shape body)))))).
  reflexivity.
Qed.

(** X11: when the cleared box does not depend on the box it replaces and
    the world position of a local point does not depend on the shape's
    box, updating twice gives the same body as updating once. *)
Theorem UpdateAABB_idempotent `{Collaborators} (body : PyBodyObject) :
  (forall b b' : AABBBox, AABB_Clear b = AABB_Clear b') ->
  (forall (bd : PyBodyObject) (b : AABBBox) (p : PyVector2),
     PyBodyObject_GetGlobalPos (set_box bd b) p = PyBodyObject_GetGlobalPos bd p) ->
  _RectShapeUpdateAABB (_RectShapeUpdateAABB body) = _RectShapeUpdateAABB body.
Proof.
  intros Hclear Hpos.
  destruct (ShapeType_eqb (type (shape (body_shape body))) ST_RECT) eqn:Hrect.
  - apply ShapeType_eqb_RECT in Hrect.
    rewrite (UpdateAABB_rect_box body Hpos Hrect).
    set (B := fold_left _ _ _).
    rewrite (UpdateAABB_rect_box (set_box body B) Hpos Hrect).
    cbn [set_box body_shape shape box corners bottomleft bottomright topright
         topleft fMass vecPosition fRotation type rInertia].
    fold (corners (body_shape body)).
    fold (set_box body B).
    rewrite (map_ext _ _ (Hpos body B)).
    rewrite (Hclear B (box (shape (body_shape body)))).
    fold B; reflexivity.
  - unfold _RectShapeUpdateAABB at 2; rewrite Hrect.
    unfold _RectShapeUpdateAABB; rewrite Hrect; reflexivity.
Qed.

(** X12: when expanding a box to a point gives a box that contains the
    point and everything the box contained, and world positions do not
    depend on the shape's box, the box stored by the update of a rectangle
    body contains the world positions of its four corners; the update
    changes nothing but that box. *)
Theorem UpdateAABB_contains_corners `{Collaborators} (body : PyBodyObject) :
  (forall b p, box_contains (AABB_ExpandTo b p) p) ->
  (forall b p q, box_contains b q -> box_contains (AABB_ExpandTo b p) q) ->
  (forall (bd : PyBodyObject) (b : AABBBox) (p : PyVector2),
     PyBodyObject_GetGlobalPos (set_box bd b) p = PyBodyObject_GetGlobalPos bd p) ->
  type (shape (body_shape body)) = ST_RECT ->
  let body' := _RectShapeUpdateAABB body in
  Forall (fun c =>
            box_contains (box (shape (body_shape body')))
                         (PyBodyObject_GetGlobalPos body c))
         (corners (body_shape body))
  /\ body' = set_box body (box (shape (body_shape body'))).
Proof.
  intros Hin Hkeep Hpos Hrect body'.
  unfold body'; rewrite (UpdateAABB_rect_box body Hpos Hrect).
  cbn [set_box body_shape shape box].
  split; [| reflexivity].
  assert (Hfold : forall (ps : list PyVector2) (b : AABBBox) (q : PyVector2),
             box_contains b q \/ In q ps ->
             box_contains (fold_left AABB_ExpandTo ps b) q).
  { induction ps as [| p ps IH]; intros b q Hq; cbn [fold_left].
    - destruct Hq as [Hq | []]; exact Hq.
    - apply IH; destruct Hq as [Hq | [<- | Hq]].
      + left; apply Hkeep; exact Hq.
      + left; apply Hin.
      + right; exact Hq. }
  apply Forall_forall; intros c Hc.
  apply Hfold; right; apply in_map; exact Hc.
Qed.

(** ** The collaborators of [SpecModel] meet the assumptions made above *)

Lemma Rotate_back (u : PyVector2) (a : R) :
  PyVector2_Rotate (PyVector2_Rotate u (- a)) a = u.
Proof.
  destruct u as [x y]; unfold PyVector2_Rotate; cbn [real imag].
  rewrite cos_neg, sin_neg.
  pose proof (sin_cos_square a) as Hsc.
  f_equal.
  - replace x with (x * (sin a * sin a + cos a * cos a)) at 3
      by (rewrite Hsc; ring).
    ring.
  - replace y with (y * (sin a * sin a + cos a * cos a)) at 3
      by (rewrite Hsc; ring).
    ring.
Qed.

Lemma SpecModel_frame (target source : PyBodyObject) (c : PyVector2) :
  to_world target (SpecModel.GetRelativePos target source c) = to_world source c.
Proof.
  unfold to_world, SpecModel.GetRelativePos, SpecModel.GetGlobalPos.
  rewrite Rotate_back.
  unfold c_sum, c_diff; cbn [real imag]; f_equal; ring.
Qed.

Lemma SpecModel_relative_translate (v : PyVector2)
    (target source : PyBodyObject) (p : PyVector2) :
  SpecModel.GetRelativePos (translate_body v target) (translate_body v source) p
  = SpecModel.GetRelativePos target source p.
Proof.
  unfold SpecModel.GetRelativePos, SpecModel.GetGlobalPos, translate_body;
    cbn [fRotation vecPosition].
  f_equal; unfold c_diff, c_sum; cbn [real imag]; f_equal; ring.
Qed.

Lemma SpecModel_expand_in (b : AABBBox) (p : PyVector2) :
  box_contains (SpecModel.ExpandTo b p) p.
Proof.
  unfold box_contains, SpecModel.ExpandTo; cbn [left right bottom top].
  pose proof (Rmin_r (left b) (real p)); pose proof (Rmax_r (right b) (real p)).
  pose proof (Rmin_r (bottom b) (imag p)); pose proof (Rmax_r (top b) (imag p)).
  lra.
Qed.

Lemma SpecModel_expand_keep (b : AABBBox) (p q : PyVector2) :
  box_contains b q -> box_contains (SpecModel.ExpandTo b p) q.
Proof.
  unfold box_contains, SpecModel.ExpandTo; cbn [left right bottom top].
  pose proof (Rmin_l (left b) (real p)); pose proof (Rmax_l (right b) (real p)).
  pose proof (Rmin_l (bottom b) (imag p)); pose proof (Rmax_l (top b) (imag p)).
  lra.
Qed.

(** ** The further properties on the scenes *)

Lemma min_depth_spec_witness :
  _SATFindCollisionProperty tie_bodyA tie_bodyB unit_box unit_box tie_candi
  = Ok tie_result
  /\ (let depth := Candidate.min_depth (sat_candi tie_result) in
      let k := choose_k tie_bodyA tie_bodyB unit_box unit_box tie_candi in
      depth = Rmin (min_dep tie_bodyA tie_bodyB unit_box unit_box tie_candi 0)
                   (min_dep tie_bodyA tie_bodyB unit_box unit_box tie_candi 1)
      /\ (exists f,
            face_id tie_bodyA tie_bodyB unit_box unit_box tie_candi k = Some f
            /\ depth = deps (sel k unit_box unit_box)
                            (conts tie_bodyA tie_bodyB tie_candi k) f)
      /\ 0 <= depth < DBL_MAX).
Proof.
  split; [exact tie_sat |].
  exact (min_depth_spec tie_bodyA tie_bodyB unit_box unit_box tie_candi
           tie_result tie_sat).
Defined.

Lemma emitted_manifold_witness :
  _RectShapeCollision tie_bodyA tie_bodyB [] = Ok (true, tie_contacts)
  /\ exists (new : list PyContact) (ref inc : PyBodyObject) (n : PyVector2) (d : R),
       tie_contacts = [] ++ new
       /\ ((ref = tie_bodyA /\ inc = tie_bodyB) \/ (ref = tie_bodyB /\ inc = tie_bodyA))
       /\ 0 <= d
       /\ Forall (fun c =>
            Contact.ref_body c = ref /\ Contact.inc_body c = inc
            /\ Contact.normal c = n /\ Contact.depth c = d
            /\ Contact.weight c = length new) new.
Proof.
  split; [exact tie_collide |].
  exact (emitted_manifold tie_bodyA tie_bodyB [] tie_contacts tie_collide).
Defined.

Lemma tie_bodies_positive :
  0 < fMass tie_bodyA /\ 0 < fMass tie_bodyB
  /\ 0 < rInertia (shape (body_shape tie_bodyA))
  /\ 0 < rInertia (shape (body_shape tie_bodyB)).
Proof.
  change (0 < 1 /\ 0 < 1 /\ 0 < 1 /\ 0 < 1); lra.
Qed.

Lemma emitted_kFactor_positive_witness :
  (0 < fMass tie_bodyA /\ 0 < fMass tie_bodyB
   /\ 0 < rInertia (shape (body_shape tie_bodyA))
   /\ 0 < rInertia (shape (body_shape tie_bodyB))
   /\ _RectShapeCollision tie_bodyA tie_bodyB [] = Ok (true, tie_contacts))
  /\ exists new : list PyContact,
       tie_contacts = [] ++ new /\ Forall (fun c => 0 < Contact.kFactor c) new.
Proof.
  destruct tie_bodies_positive as (Hm1 & Hm2 & Hi1 & Hi2).
  split; [conjs; try assumption; exact tie_collide |].
  exact (emitted_kFactor_positive tie_bodyA tie_bodyB [] tie_contacts
           Hm1 Hm2 Hi1 Hi2 tie_collide).
Defined.

Lemma emitted_positions_witness :
  ((forall c, to_world tie_bodyB
                (PyBodyObject_GetRelativePos tie_bodyB tie_bodyA c)
              = to_world tie_bodyA c)
   /\ _RectShapeCollision tie_bodyA tie_bodyB [] = Ok (true, tie_contacts))
  /\ exists (candi : _Candidate) (new : list PyContact),
       collect_contacts tie_bodyA tie_bodyB = Ok (true, candi)
       /\ tie_contacts = [] ++ new
       /\ Forall (fun c =>
            exists p, In p (Candidate.contacts candi)
                      /\ Contact.pos c = to_world tie_bodyA p) new.
Proof.
  split; [split; [exact (SpecModel_frame tie_bodyB tie_bodyA) | exact tie_collide] |].
  exact (emitted_positions tie_bodyA tie_bodyB [] tie_contacts
           (SpecModel_frame tie_bodyB tie_bodyA) tie_collide).
Defined.

Lemma collide_translation_witness :
  (forall (target source : PyBodyObject) (p : PyVector2),
     PyBodyObject_GetRelativePos (translate_body (mkVec 1000 1000) target)
                                 (translate_body (mkVec 1000 1000) source) p
     = PyBodyObject_GetRelativePos target source p)
  /\ _RectShapeCollision (translate_body (mkVec 1000 1000) tie_bodyA)
                         (translate_body (mkVec 1000 1000) tie_bodyB)
                         (map (translate_contact (mkVec 1000 1000)) [])
     = match _RectShapeCollision tie_bodyA tie_bodyB [] with
       | Ok (b, l') => Ok (b, map (translate_contact (mkVec 1000 1000)) l')
       | Fault flt => Fault flt
       end.
Proof.
  split; [exact (SpecModel_relative_translate (mkVec 1000 1000)) |].
  exact (collide_translation (mkVec 1000 1000)
           (SpecModel_relative_translate (mkVec 1000 1000))
           tie_bodyA tie_bodyB []).
Defined.

Lemma UpdateAABB_idempotent_witness :
  ((forall b b' : AABBBox, AABB_Clear b = AABB_Clear b')
   /\ (forall (bd : PyBodyObject) (b : AABBBox) (p : PyVector2),
         PyBodyObject_GetGlobalPos (set_box bd b) p
         = PyBodyObject_GetGlobalPos bd p))
  /\ _RectShapeUpdateAABB (_RectShapeUpdateAABB tie_bodyB)
     = _RectShapeUpdateAABB tie_bodyB.
Proof.
  assert (Hclear : forall b b' : AABBBox, AABB_Clear b = AABB_Clear b')
    by (intros b b'; reflexivity).
  assert (Hpos : forall (bd : PyBodyObject) (b : AABBBox) (p : PyVector2),
             PyBodyObject_GetGlobalPos (set_box bd b) p
             = PyBodyObject_GetGlobalPos bd p)
    by (intros bd b p; reflexivity).
  split; [split; assumption |].
  exact (UpdateAABB_idempotent tie_bodyB Hclear Hpos).
Defined.

Lemma UpdateAABB_contains_corners_witness :
  ((forall b p, box_contains (AABB_ExpandTo b p) p)
   /\ (forall b p q, box_contains b q -> box_contains (AABB_ExpandTo b p) q)
   /\ (forall (bd : PyBodyObject) (b : AABBBox) (p : PyVector2),
         PyBodyObject_GetGlobalPos (set_box bd b) p
         = PyBodyObject_GetGlobalPos bd p)
   /\ type (shape (body_shape tie_bodyB)) = ST_RECT)
  /\ (let body' := _RectShapeUpdateAABB tie_bodyB in
      Forall (fun c =>
                box_contains (box (shape (body_shape body')))
                             (PyBodyObject_GetGlobalPos tie_bodyB c))
             (corners (body_shape tie_bodyB))
      /\ body' = set_box tie_bodyB (box (shape (body_shape body')))).
Proof.
  assert (Hpos : forall (bd : PyBodyObject) (b : AABBBox) (p : PyVector2),
             PyBodyObject_GetGlobalPos (set_box bd b) p
             = PyBodyObject_GetGlobalPos bd p)
    by (intros bd b p; reflexivity).
  split.
  - conjs; [exact SpecModel_expand_in | exact SpecModel_expand_keep
            | exact Hpos | reflexivity].
  - exact (UpdateAABB_contains_corners tie_bodyB SpecModel_expand_in
             SpecModel_expand_keep Hpos eq_refl).
Defined.

Lemma local_box_unrotated_witness :
  (0 <= 2 /\ 0 <= 3)
  /\ (let r := PyRectShape_New 2 3 0 in
      local_box r = mkBox (- 2 / 2) (2 / 2) (- 3 / 2) (3 / 2)
      /\ Forall (fun c => left (local_box r) <= real c <= right (local_box r)
                          /\ bottom (local_box r) <= imag c <= top (local_box r))
                (corners r)).
Proof.
  assert (H2 : 0 <= 2) by lra.
  assert (H3 : 0 <= 3) by lra.
  split; [split; assumption |].
  exact (local_box_unrotated 2 3 H2 H3).
Defined.
